(** * GreenBridge: the EcoScore gamification engine

    A shallow embedding of [greenbridge/eco_cabinet/models.py]
    ([EcoScore.update_from_batches], [EcoScore._update_gamification_elements]
    and [EcoScore._update_streak]) together with the properties of the
    engine that the specification states.

    Conventions of the embedding.
    - Python [int] is [Z] (unbounded, signed).
    - [Decimal] is the rational it denotes ([Q]).  All the decimal
      operations of the engine (sum, product, division by 20, multiplication
      by 10) are exact in Python for values that fit the declared
      [max_digits].
    - [float] is modelled by the exact rational quotient; binary64 rounding
      is not modelled.
    - A [date] is its proleptic ordinal ([date.toordinal()]), so that
      [(today - last).days] is a subtraction in [Z].
    - The badge array is written by the engine as [list(set(badges))]; its
      order is unspecified in Python and it is modelled as a [gset string].
    - [self.save()] and the metadata columns ([id], [created_at],
      [updated_at], the two rank columns) are outside the model: the engine
      is the function from the object before the call to the object handed
      to [save]. *)

From Stdlib Require Import ZArith QArith Qround Lia.
From stdpp Require Import gmap strings list sorting.

Open Scope string_scope.
Open Scope Z_scope.

(** ** Data model *)

Definition Decimal := Q.
Definition date := Z.
Definition UUID := Z.

(** Modelled from the spec: the [Material] declaration reached through
    [material_type__co2_per_kg], [material_type__water_per_kg] and
    [material_type__energy_per_kg] is not part of the sources.  A missing
    coefficient is a SQL NULL. *)
Record Material := {
  co2_per_kg : option Decimal;
  water_per_kg : option Decimal;
  energy_per_kg : option Decimal
}.

(** Modelled from the spec: the [TextileBatch] declaration is not part of the
    sources; these are the columns [update_from_batches] reads. *)
Record TextileBatch := {
  owner : UUID;
  status : string;
  is_active : bool;
  weight_kg : Decimal;
  material_type : option Material
}.

(** Modelled from the spec: the value of the constant
    [TextileBatch.RECYCLED] (status "recycled"). *)
Definition RECYCLED : string := "recycled".

Record EcoScore := {
  user : UUID;
  total_batches : Z;
  total_weight_kg : Decimal;
  total_co2_saved_kg : Decimal;
  total_water_saved_liters : Decimal;
  total_energy_saved_kwh : Decimal;
  level : Z;
  points : Z;
  badges : gset string;
  next_badge_progress : Q;
  streak_days : Z;
  longest_streak_days : Z;
  last_activity_date : option date;
  trees_equivalent : Decimal
}.

(** [EcoScore.objects.create(user=instance)]: every column at its default. *)
Definition create_eco_score (instance : UUID) : EcoScore := {|
  user := instance;
  total_batches := 0;
  total_weight_kg := 0%Q;
  total_co2_saved_kg := 0%Q;
  total_water_saved_liters := 0%Q;
  total_energy_saved_kwh := 0%Q;
  level := 1;
  points := 0;
  badges := ∅;
  next_badge_progress := 0%Q;
  streak_days := 0;
  longest_streak_days := 0;
  last_activity_date := None;
  trees_equivalent := 0%Q
|}.

(** Attribute assignments [self.f = v]. *)
Definition set_aggregates (n : Z) (w co2 water energy trees : Decimal)
    (self : EcoScore) : EcoScore := {|
  user := user self;
  total_batches := n;
  total_weight_kg := w;
  total_co2_saved_kg := co2;
  total_water_saved_liters := water;
  total_energy_saved_kwh := energy;
  level := level self;
  points := points self;
  badges := badges self;
  next_badge_progress := next_badge_progress self;
  streak_days := streak_days self;
  longest_streak_days := longest_streak_days self;
  last_activity_date := last_activity_date self;
  trees_equivalent := trees
|}.

Definition set_gamification (lvl pts : Z) (bs : gset string) (progress : Q)
    (self : EcoScore) : EcoScore := {|
  user := user self;
  total_batches := total_batches self;
  total_weight_kg := total_weight_kg self;
  total_co2_saved_kg := total_co2_saved_kg self;
  total_water_saved_liters := total_water_saved_liters self;
  total_energy_saved_kwh := total_energy_saved_kwh self;
  level := lvl;
  points := pts;
  badges := bs;
  next_badge_progress := progress;
  streak_days := streak_days self;
  longest_streak_days := longest_streak_days self;
  last_activity_date := last_activity_date self;
  trees_equivalent := trees_equivalent self
|}.

Definition set_streak (days longest : Z) (last : option date)
    (self : EcoScore) : EcoScore := {|
  user := user self;
  total_batches := total_batches self;
  total_weight_kg := total_weight_kg self;
  total_co2_saved_kg := total_co2_saved_kg self;
  total_water_saved_liters := total_water_saved_liters self;
  total_energy_saved_kwh := total_energy_saved_kwh self;
  level := level self;
  points := points self;
  badges := badges self;
  next_badge_progress := next_badge_progress self;
  streak_days := days;
  longest_streak_days := longest;
  last_activity_date := last;
  trees_equivalent := trees_equivalent self
|}.

(** ** Python and ORM primitives *)

(** [int(d)] on a [Decimal]: truncation toward zero. *)
Definition int (d : Decimal) : Z := Z.quot (Qnum d) (Z.pos (Qden d)).

(** [float(d)]: the exact value (rounding not modelled). *)
Definition float (d : Decimal) : Q := d.

(** [a >= b] on decimals. *)
Definition ge_dec (a b : Decimal) : bool := Qle_bool b a.

(** [x or Decimal('0.00')]: [None] and a zero decimal are both falsy. *)
Definition or_zero (x : option Decimal) : Decimal :=
  match x with
  | None => 0%Q
  | Some d => if Qeq_bool d 0 then 0%Q else d
  end.

(** SQL [SUM]: NULL inputs are skipped, and the sum of no value is NULL. *)
Definition Sum (vals : list (option Decimal)) : option Decimal :=
  foldl (λ acc v,
           match v, acc with
           | None, _ => acc
           | Some x, None => Some x
           | Some x, Some a => Some (a + x)%Q
           end) None vals.

(** [F('weight_kg') * F('material_type__c')]: NULL if the coefficient is. *)
Definition times_coefficient (c : Material → option Decimal)
    (b : TextileBatch) : option Decimal :=
  match material_type b with
  | None => None
  | Some m => match c m with
              | None => None
              | Some k => Some (weight_kg b * k)%Q
              end
  end.

(** [TextileBatch.objects.filter(owner=..., status=RECYCLED, is_active=True)]
    over the rows of the table. *)
Definition filter_batches (u : UUID) (objects : list TextileBatch)
    : list TextileBatch :=
  filter (λ b, owner b = u ∧ status b = RECYCLED ∧ is_active b = true) objects.

(** [enumerate(l, start)] and [enumerate(l)]. *)
Fixpoint enumerate_from {A} (start : Z) (l : list A) : list (Z * A) :=
  match l with
  | [] => []
  | x :: l' => (start, x) :: enumerate_from (start + 1) l'
  end.

Definition enumerate {A} (l : list A) : list (Z * A) := enumerate_from 0 l.

(** ** [_update_gamification_elements] *)

Definition level_thresholds : list Z :=
  [0; 100; 300; 600; 1000; 1500; 2100; 2800; 3600; 4500; 5500].

(** The [for i, threshold in enumerate(level_thresholds)] loop; [lvl] is
    [self.level] on entry. *)
Definition level_loop (pts : Z) (lvl : Z) (table : list (Z * Z)) : Z :=
  foldl (λ l it, if pts >=? it.2 then it.1 + 1 else l) lvl table.

(** [if c: badges.append(b)]. *)
Definition append_if (c : bool) (b : string) (bs : list string) : list string :=
  if c then (bs ++ [b])%list else bs.

Definition collect_badges (w : Decimal) (n streak : Z) : list string :=
  let bs := [] in
  let bs := append_if (ge_dec w 1%Q) "first_step" bs in
  let bs := append_if (ge_dec w 10%Q) "eco_starter" bs in
  let bs := append_if (ge_dec w 50%Q) "eco_enthusiast" bs in
  let bs := append_if (ge_dec w 100%Q) "eco_warrior" bs in
  let bs := append_if (ge_dec w 500%Q) "eco_champion" bs in
  let bs := append_if (ge_dec w 1000%Q) "eco_legend" bs in
  let bs := append_if (n >=? 5) "regular_recycler" bs in
  let bs := append_if (n >=? 20) "dedicated_recycler" bs in
  let bs := append_if (n >=? 50) "recycling_expert" bs in
  let bs := append_if (streak >=? 7) "weekly_streak" bs in
  let bs := append_if (streak >=? 30) "monthly_streak" bs in
  let bs := append_if (streak >=? 100) "centurion" bs in
  bs.

(** The items of the dict literal [next_badge_thresholds], in insertion
    order. *)
Definition next_badge_thresholds : list (string * Z) :=
  [("first_step", 1); ("eco_starter", 10); ("eco_enthusiast", 50);
   ("eco_warrior", 100); ("eco_champion", 500); ("eco_legend", 1000)].

(** [sorted(items, key=lambda x: x[1])]: a stable sort on the second
    component (items with equal keys keep their order). *)
Fixpoint insert_by_key (x : string * Z) (l : list (string * Z))
    : list (string * Z) :=
  match l with
  | [] => [x]
  | y :: l' => if x.2 <=? y.2 then x :: y :: l'
               else y :: insert_by_key x l'
  end.

Definition sorted_by_key (l : list (string * Z)) : list (string * Z) :=
  foldr insert_by_key [] l.

(** The [for ... if badge not in self.badges: ...; break ... else: ...]
    loop. *)
Fixpoint progress_loop (current_weight : Q) (bs : gset string)
    (items : list (string * Z)) : Q :=
  match items with
  | [] => 1%Q
  | (badge, threshold) :: rest =>
      if bool_decide (badge ∉ bs)
      then (current_weight / inject_Z threshold)%Q
      else progress_loop current_weight bs rest
  end.

Definition _update_gamification_elements (self : EcoScore) : EcoScore :=
  let pts := int (total_weight_kg self * 10)%Q in
  let lvl := level_loop pts (level self) (enumerate level_thresholds) in
  let bs : gset string :=
    list_to_set (collect_badges (total_weight_kg self) (total_batches self)
                                (streak_days self)) in
  let current_weight := float (total_weight_kg self) in
  let progress :=
    progress_loop current_weight bs (sorted_by_key next_badge_thresholds) in
  set_gamification lvl pts bs progress self.

(** ** [_update_streak] *)

Definition _update_streak (today : date) (self : EcoScore) : EcoScore :=
  match last_activity_date self with
  | None => set_streak 1 1 (Some today) self
  | Some last =>
      if bool_decide (last = today) then self
      else if bool_decide (today - last = 1) then
        let days := streak_days self + 1 in
        let longest := if days >? longest_streak_days self
                       then days else longest_streak_days self in
        set_streak days longest (Some today) self
      else set_streak 1 (longest_streak_days self) (Some today) self
  end.

(** ** [update_from_batches] *)

(** [objects] is the content of the batch table and [today] the value of
    [timezone.now().date()] read by [_update_streak]. *)
Definition update_from_batches (objects : list TextileBatch) (today : date)
    (self : EcoScore) : EcoScore :=
  let batches := filter_batches (user self) objects in
  let n := Z.of_nat (length batches) in
  let weight_sum := or_zero (Sum ((λ b, Some (weight_kg b)) <$> batches)) in
  let co2 := or_zero (Sum (times_coefficient co2_per_kg <$> batches)) in
  let water := or_zero (Sum (times_coefficient water_per_kg <$> batches)) in
  let energy := or_zero (Sum (times_coefficient energy_per_kg <$> batches)) in
  let trees := (co2 / 20)%Q in
  let self := set_aggregates n weight_sum co2 water energy trees self in
  let self := _update_gamification_elements self in
  let self := _update_streak today self in
  self.

(** Successive engine runs, oldest first; each run sees its own table
    content and its own date. *)
Definition run_all (runs : list (list TextileBatch * date)) (s : EcoScore)
    : EcoScore :=
  foldl (λ st r, update_from_batches r.1 r.2 st) s runs.

(** ** Definitions used by the statements *)

(** The number of entries of [table] that are [<= pts]. *)
Definition count_le (pts : Z) (table : list Z) : Z :=
  Z.of_nat (length (filter (λ t, t ≤ pts) table)).

(** The badge tables as the specification gives them: weight thresholds are
    [next_badge_thresholds] (kg); these are the batch and streak ones. *)
Definition batch_badge_thresholds : list (string * Z) :=
  [("regular_recycler", 5); ("dedicated_recycler", 20); ("recycling_expert", 50)].

Definition streak_badge_thresholds : list (string * Z) :=
  [("weekly_streak", 7); ("monthly_streak", 30); ("centurion", 100)].

(** A badge is warranted by the metrics [(w, n, k)] when its inclusive
    threshold is met. *)
Definition warranted (w : Decimal) (n k : Z) (b : string) : Prop :=
  (∃ t, (b, t) ∈ next_badge_thresholds ∧ (inject_Z t <= w)%Q) ∨
  (∃ t, (b, t) ∈ batch_badge_thresholds ∧ t <= n) ∨
  (∃ t, (b, t) ∈ streak_badge_thresholds ∧ t <= k).

(** The streak state machine, in the words of the specification. *)
Inductive StreakCase := no_history | same_day | consecutive | broken.

(** [no_history]: the last activity date is unset; [same_day]: it is today;
    [consecutive]: today is one day after it; [broken]: any other
    difference. *)
Definition classify (last : option date) (today : date) : StreakCase :=
  match last with
  | None => no_history
  | Some d =>
      if decide (d = today) then same_day
      else if decide (today - d = 1) then consecutive
      else broken
  end.

(** The transition of each case on (streak_days, longest_streak_days,
    last_activity_date). *)
Definition streak_transition (c : StreakCase) (today : date)
    (st : Z * Z * option date) : Z * Z * option date :=
  let '(days, longest, last) := st in
  match c with
  | no_history => (1, 1, Some today)
  | same_day => (days, longest, last)
  | consecutive => (days + 1, Z.max longest (days + 1), Some today)
  | broken => (1, longest, Some today)
  end.

Definition streak_fields (s : EcoScore) : Z * Z * option date :=
  (streak_days s, longest_streak_days s, last_activity_date s).

(** The columns the streak update does not own. *)
Definition other_fields (s : EcoScore) :=
  (user s, total_batches s, total_weight_kg s, total_co2_saved_kg s,
   total_water_saved_liters s, total_energy_saved_kwh s, trees_equivalent s,
   level s, points s, badges s, next_badge_progress s).

(** The object after the aggregation statements of [update_from_batches]
    (count, weight, impact, trees equivalent). *)
Definition after_aggregation (objects : list TextileBatch) (s : EcoScore)
    : EcoScore :=
  let batches := filter_batches (user s) objects in
  let co2 := or_zero (Sum (times_coefficient co2_per_kg <$> batches)) in
  set_aggregates (Z.of_nat (length batches))
    (or_zero (Sum ((λ b, Some (weight_kg b)) <$> batches)))
    co2
    (or_zero (Sum (times_coefficient water_per_kg <$> batches)))
    (or_zero (Sum (times_coefficient energy_per_kg <$> batches)))
    (co2 / 20)%Q s.

(** What every run preserves: the running maximum dominates the streak, and
    it is at least 1 once an activity date is recorded. *)
Definition streak_invariant (s : EcoScore) : Prop :=
  streak_days s <= longest_streak_days s ∧
  (last_activity_date s ≠ None → 1 <= longest_streak_days s).

(** Test fixtures: recycled batches of user 1 (one of 10 kg in particular),
    the 10 kg batch deactivated, and a helper that pairs a table content
    with trigger dates. *)
Definition cotton : Material :=
  {| co2_per_kg := Some (5 # 2)%Q; water_per_kg := None;
     energy_per_kg := Some 1%Q |}.

Definition recycled_batch (kg : Decimal) : TextileBatch :=
  {| owner := 1; status := RECYCLED; is_active := true; weight_kg := kg;
     material_type := Some cotton |}.

Definition batch10 : TextileBatch := recycled_batch 10%Q.

Definition batch10_deactivated : TextileBatch :=
  {| owner := 1; status := RECYCLED; is_active := false; weight_kg := 10%Q;
     material_type := Some cotton |}.

Definition daily (objects : list TextileBatch) (days : list date)
    : list (list TextileBatch * date) :=
  (λ d, (objects, d)) <$> days.

(** ** Definitions used by the further properties *)

(** The row condition of the queryset filter. *)
Definition passes_filter (u : UUID) (b : TextileBatch) : Prop :=
  owner b = u ∧ status b = RECYCLED ∧ is_active b = true.

(** The plain sum of a list of decimals. *)
Definition total (l : list Decimal) : Decimal := foldr Qplus 0%Q l.

(** One step of the fold in [Sum]. *)
Definition sum_step (acc v : option Decimal) : option Decimal :=
  match v, acc with
  | None, _ => acc
  | Some x, None => Some x
  | Some x, Some a => Some (a + x)%Q
  end.

(** The values an SQL [SUM] adds up, NULLs read as 0. *)
Definition total_present (vals : list (option Decimal)) : Decimal :=
  total (default 0%Q <$> vals).

(** A coefficient of the batch's material read as a number: 0 when the
    material or the coefficient is NULL. *)
Definition coefficient_or_zero (c : Material → option Decimal)
    (b : TextileBatch) : Decimal :=
  match material_type b with
  | None => 0%Q
  | Some m => default 0%Q (c m)
  end.

(** The impact of a set of batches for one coefficient. *)
Definition impact (c : Material → option Decimal)
    (batches : list TextileBatch) : Decimal :=
  total ((λ b, weight_kg b * coefficient_or_zero c b)%Q <$> batches).

(** A batch with no negative figure. *)
Definition nonnegative_batch (b : TextileBatch) : Prop :=
  (0 <= weight_kg b)%Q ∧
  (0 <= coefficient_or_zero co2_per_kg b)%Q ∧
  (0 <= coefficient_or_zero water_per_kg b)%Q ∧
  (0 <= coefficient_or_zero energy_per_kg b)%Q.

(** One run per day on consecutive days starting at [first]; the i-th run
    sees the i-th table content. *)
Fixpoint on_consecutive_days (first : date) (tables : list (list TextileBatch))
    : list (list TextileBatch * date) :=
  match tables with
  | [] => []
  | objects :: rest => (objects, first) :: on_consecutive_days (first + 1) rest
  end.

(** Counting the runs: the streak and its maximum are bounded by the number
    of runs made so far. *)
Definition streak_count_invariant (n : Z) (s : EcoScore) : Prop :=
  0 <= streak_days s <= n ∧ 0 <= longest_streak_days s <= n ∧
  (last_activity_date s ≠ None → 1 <= streak_days s) ∧
  (last_activity_date s = None → longest_streak_days s = 0).

(** The object with another stored badge array. *)
Definition with_badges (stored : gset string) (s : EcoScore) : EcoScore :=
  set_gamification (level s) (points s) stored (next_badge_progress s) s.

(** The twelve badge codes the engine can append. *)
Definition known_badges : list string :=
  (next_badge_thresholds ++ batch_badge_thresholds ++
   streak_badge_thresholds)%list.*1.

(** Two objects that agree on every column, decimals and the progress being
    compared as numbers. *)
Definition same_score (s1 s2 : EcoScore) : Prop :=
  user s1 = user s2 ∧ total_batches s1 = total_batches s2 ∧
  (total_weight_kg s1 == total_weight_kg s2)%Q ∧
  (total_co2_saved_kg s1 == total_co2_saved_kg s2)%Q ∧
  (total_water_saved_liters s1 == total_water_saved_liters s2)%Q ∧
  (total_energy_saved_kwh s1 == total_energy_saved_kwh s2)%Q ∧
  (trees_equivalent s1 == trees_equivalent s2)%Q ∧
  level s1 = level s2 ∧ points s1 = points s2 ∧ badges s1 = badges s2 ∧
  (next_badge_progress s1 == next_badge_progress s2)%Q ∧
  streak_fields s1 = streak_fields s2.

(** ** Truncation, floor and the points formula *)

Lemma int_nonneg_floor (d : Decimal) : (0 <= d)%Q → int d = Qfloor d.
Proof.
  destruct d as [n m]. unfold Qle, int, Qfloor. simpl. intros Hn.
  apply Z.quot_div_nonneg; lia.
Qed.

Lemma times_ten_nonneg (w : Decimal) : (0 <= w)%Q → (0 <= w * 10)%Q.
Proof. intros Hw. apply Qmult_le_0_compat; [exact Hw | discriminate]. Qed.

Lemma times_ten_le (v w : Decimal) : (v <= w)%Q → (v * 10 <= w * 10)%Q.
Proof. intros Hvw. apply Qmult_le_compat_r; [exact Hvw | discriminate]. Qed.

Lemma int_times_ten_mono (v w : Decimal) :
  (0 <= v)%Q → (v <= w)%Q → int (v * 10)%Q <= int (w * 10)%Q.
Proof.
  intros Hv Hvw.
  assert (Hw : (0 <= w)%Q) by (eapply Qle_trans; eassumption).
  rewrite !int_nonneg_floor by (apply times_ten_nonneg; assumption).
  apply Qfloor_resp_le, times_ten_le, Hvw.
Qed.

Lemma int_nonneg (d : Decimal) : (0 <= d)%Q → 0 <= int d.
Proof.
  intros Hd. rewrite int_nonneg_floor by exact Hd.
  change 0 with (Qfloor 0). apply Qfloor_resp_le, Hd.
Qed.

(** ** The level loop counts the thresholds reached *)

Lemma count_le_nil pts : count_le pts [] = 0.
Proof. reflexivity. Qed.

Lemma count_le_cons pts t table :
  count_le pts (t :: table) =
  (if t <=? pts then 1 else 0) + count_le pts table.
Proof.
  unfold count_le. rewrite filter_cons.
  destruct (Z.leb_spec t pts); case_decide; try lia; simpl length; lia.
Qed.

Lemma count_le_nonneg pts table : 0 <= count_le pts table.
Proof. unfold count_le. lia. Qed.

Lemma count_le_length pts table : count_le pts table <= Z.of_nat (length table).
Proof. unfold count_le. pose proof (length_filter (λ t, t ≤ pts) table). lia. Qed.

Lemma count_le_mono p q table : p <= q → count_le p table <= count_le q table.
Proof.
  intros Hpq. induction table as [|t table IH]; [reflexivity|].
  rewrite !count_le_cons.
  destruct (Z.leb_spec t p), (Z.leb_spec t q); lia.
Qed.

Lemma count_le_above pts table :
  Forall (λ t, pts < t) table → count_le pts table = 0.
Proof.
  induction 1 as [|t table Ht _ IH]; [reflexivity|].
  rewrite count_le_cons, IH. destruct (Z.leb_spec t pts); lia.
Qed.

Lemma count_le_all pts table :
  Forall (λ t, t <= pts) table → count_le pts table = Z.of_nat (length table).
Proof.
  induction 1 as [|t table Ht _ IH]; [reflexivity|].
  rewrite count_le_cons, IH. destruct (Z.leb_spec t pts); simpl length; lia.
Qed.

(** On an ascending table the loop leaves [i + 1] for the last index [i]
    whose threshold is reached, i.e. start + count; it leaves the level
    untouched when no threshold is reached. *)
Lemma level_loop_ascending pts table : ∀ start lvl,
  StronglySorted Z.le table →
  level_loop pts lvl (enumerate_from start table) =
  if count_le pts table =? 0 then lvl else start + count_le pts table.
Proof.
  induction table as [|t table IH]; intros start lvl Hs; [reflexivity|].
  apply StronglySorted_inv in Hs as [Hs Hall].
  simpl enumerate_from. unfold level_loop. simpl foldl.
  fold (level_loop pts (if pts >=? t then start + 1 else lvl)
          (enumerate_from (start + 1) table)).
  rewrite IH by exact Hs. rewrite count_le_cons.
  pose proof (count_le_nonneg pts table) as Hc.
  rewrite Z.geb_leb.
  destruct (Z.leb_spec t pts) as [Hle|Hlt].
  - destruct (Z.eqb_spec (count_le pts table) 0) as [Hz|Hnz];
      destruct (Z.eqb_spec (1 + count_le pts table) 0); lia.
  - rewrite count_le_above; [reflexivity|].
    eapply Forall_impl; [exact Hall|]. simpl. intros; lia.
Qed.

Lemma level_thresholds_ascending : StronglySorted Z.le level_thresholds.
Proof. unfold level_thresholds. repeat constructor; lia. Qed.

Lemma level_loop_count pts lvl :
  0 <= pts →
  level_loop pts lvl (enumerate level_thresholds) = count_le pts level_thresholds.
Proof.
  intros Hp. unfold enumerate.
  rewrite level_loop_ascending by apply level_thresholds_ascending.
  assert (1 <= count_le pts level_thresholds).
  { unfold level_thresholds. rewrite count_le_cons.
    pose proof (count_le_nonneg pts [100; 300; 600; 1000; 1500; 2100; 2800; 3600; 4500; 5500]).
    destruct (Z.leb_spec 0 pts); lia. }
  destruct (Z.eqb_spec (count_le pts level_thresholds) 0); lia.
Qed.

(** With negative points no threshold is reached and the level stays as it
    was. *)
Lemma level_loop_negative pts lvl :
  pts < 0 → level_loop pts lvl (enumerate level_thresholds) = lvl.
Proof.
  intros Hp. unfold enumerate.
  rewrite level_loop_ascending by apply level_thresholds_ascending.
  rewrite count_le_above; [reflexivity|].
  unfold level_thresholds. repeat constructor; lia.
Qed.

(** ** The badge list *)

Lemma elem_of_append_if x c b bs :
  x ∈ append_if c b bs ↔ x ∈ bs ∨ (c = true ∧ x = b).
Proof.
  unfold append_if. destruct c.
  - rewrite elem_of_app, list_elem_of_singleton. tauto.
  - split; [tauto|]. intros [Hx|[Hc _]]; [exact Hx|discriminate Hc].
Qed.

Lemma ge_dec_le (a b : Decimal) : ge_dec a b = true ↔ (b <= a)%Q.
Proof. unfold ge_dec. apply Qle_bool_iff. Qed.

Lemma geb_le (a b : Z) : (a >=? b) = true ↔ b <= a.
Proof. rewrite Z.geb_leb. apply Z.leb_le. Qed.

Ltac split_table H :=
  repeat (apply elem_of_cons in H as [H|H]; [simplify_eq|]);
  try (apply elem_of_nil in H; destruct H).

Lemma elem_of_collect_badges x w n k :
  x ∈ collect_badges w n k ↔ warranted w n k x.
Proof.
  unfold collect_badges. rewrite !elem_of_append_if.
  rewrite !ge_dec_le, !geb_le. unfold warranted. split.
  - intros H.
    repeat (destruct H as [H|[Hc ->]];
            [|first [ left; eexists; split; [|exact Hc]
                    | right; left; eexists; split; [|exact Hc]
                    | right; right; eexists; split; [|exact Hc] ];
              unfold next_badge_thresholds, batch_badge_thresholds,
                streak_badge_thresholds; set_solver]).
    apply elem_of_nil in H. destruct H.
  - intros [(t & Hin & Ht)|[(t & Hin & Ht)|(t & Hin & Ht)]];
      unfold next_badge_thresholds, batch_badge_thresholds,
        streak_badge_thresholds in Hin; split_table Hin; tauto.
Qed.

Lemma elem_of_run_badges x (self : EcoScore) :
  x ∈ badges (_update_gamification_elements self) ↔
  warranted (total_weight_kg self) (total_batches self) (streak_days self) x.
Proof.
  unfold _update_gamification_elements. simpl.
  rewrite elem_of_list_to_set. apply elem_of_collect_badges.
Qed.

Lemma warranted_mono w1 n1 k1 w2 n2 k2 b :
  (w1 <= w2)%Q → n1 <= n2 → k1 <= k2 →
  warranted w1 n1 k1 b → warranted w2 n2 k2 b.
Proof.
  intros Hw Hn Hk [(t & Hin & Ht)|[(t & Hin & Ht)|(t & Hin & Ht)]].
  - left. exists t. split; [exact Hin|]. eapply Qle_trans; eassumption.
  - right. left. exists t. split; [exact Hin|lia].
  - right. right. exists t. split; [exact Hin|lia].
Qed.

(** A weight badge is in the rebuilt set exactly when its own threshold is
    met (the names of the three tables are pairwise distinct). *)
Lemma weight_badge_warranted w n k b t :
  (b, t) ∈ next_badge_thresholds →
  warranted w n k b ↔ (inject_Z t <= w)%Q.
Proof.
  intros Hb. split.
  - intros [(t' & Hin & Ht)|[(t' & Hin & Ht)|(t' & Hin & Ht)]];
      unfold next_badge_thresholds, batch_badge_thresholds,
        streak_badge_thresholds in *;
      split_table Hb; split_table Hin; exact Ht.
  - intros Ht. left. exists t. split; assumption.
Qed.

Lemma batch_badge_warranted w n k b t :
  (b, t) ∈ batch_badge_thresholds → warranted w n k b ↔ t <= n.
Proof.
  intros Hb. split.
  - intros [(t' & Hin & Ht)|[(t' & Hin & Ht)|(t' & Hin & Ht)]];
      unfold next_badge_thresholds, batch_badge_thresholds,
        streak_badge_thresholds in *;
      split_table Hb; split_table Hin; exact Ht.
  - intros Ht. right. left. exists t. split; assumption.
Qed.

Lemma streak_badge_warranted w n k b t :
  (b, t) ∈ streak_badge_thresholds → warranted w n k b ↔ t <= k.
Proof.
  intros Hb. split.
  - intros [(t' & Hin & Ht)|[(t' & Hin & Ht)|(t' & Hin & Ht)]];
      unfold next_badge_thresholds, batch_badge_thresholds,
        streak_badge_thresholds in *;
      split_table Hb; split_table Hin; exact Ht.
  - intros Ht. right. right. exists t. split; assumption.
Qed.

(** ** The progress loop *)

Lemma sorted_next_badge_thresholds :
  sorted_by_key next_badge_thresholds = next_badge_thresholds.
Proof. reflexivity. Qed.

Lemma progress_loop_all w (bs : gset string) items :
  Forall (λ it, it.1 ∈ bs) items → progress_loop w bs items = 1%Q.
Proof.
  induction 1 as [|[b t] items Hb _ IH]; [reflexivity|].
  simpl in *. rewrite bool_decide_eq_false_2 by tauto. exact IH.
Qed.

Lemma progress_loop_first_absent w (bs : gset string) pre b t post :
  Forall (λ it, it.1 ∈ bs) pre → b ∉ bs →
  progress_loop w bs (pre ++ (b, t) :: post)%list = (w / inject_Z t)%Q.
Proof.
  intros Hpre Hb. induction Hpre as [|[b' t'] pre Hb' _ IH]; simpl in *.
  - rewrite bool_decide_eq_true_2 by exact Hb. reflexivity.
  - rewrite bool_decide_eq_false_2 by tauto. exact IH.
Qed.

(** The loop either breaks at the first absent badge or falls through to its
    [else] clause. *)
Lemma progress_loop_cases w (bs : gset string) items :
  (Forall (λ it, it.1 ∈ bs) items ∧ progress_loop w bs items = 1%Q) ∨
  (∃ pre b t post, items = (pre ++ (b, t) :: post)%list ∧
     Forall (λ it, it.1 ∈ bs) pre ∧ (b ∉ bs) ∧
     progress_loop w bs items = (w / inject_Z t)%Q).
Proof.
  induction items as [|[b t] items IH].
  - left. split; [constructor|reflexivity].
  - destruct (decide (b ∈ bs)) as [Hin|Hout].
    + simpl. rewrite bool_decide_eq_false_2 by tauto.
      destruct IH as [[Hall Heq]|(pre & b' & t' & post & -> & Hpre & Hb' & Heq)].
      * left. split; [constructor; assumption|exact Heq].
      * right. exists ((b, t) :: pre), b', t', post.
        split; [reflexivity|]. split; [constructor; assumption|].
        split; assumption.
    + right. exists [], b, t, items. split; [reflexivity|].
      split; [constructor|]. split; [exact Hout|].
      simpl. rewrite bool_decide_eq_true_2 by exact Hout. reflexivity.
Qed.

Lemma quotient_in_unit_interval (w : Q) (t : Z) :
  0 < t → (0 <= w)%Q → (w < inject_Z t)%Q →
  (0 <= w / inject_Z t)%Q ∧ (w / inject_Z t < 1)%Q.
Proof.
  intros Ht Hw Hlt.
  assert (Hpos : (0 < inject_Z t)%Q).
  { change 0%Q with (inject_Z 0). rewrite <- Zlt_Qlt. exact Ht. }
  split.
  - apply Qle_shift_div_l; [exact Hpos|]. rewrite Qmult_0_l. exact Hw.
  - apply Qlt_shift_div_r; [exact Hpos|]. rewrite Qmult_1_l. exact Hlt.
Qed.

Lemma next_badge_thresholds_positive b t :
  (b, t) ∈ next_badge_thresholds → 0 < t.
Proof.
  intros Hin. unfold next_badge_thresholds in Hin. split_table Hin; lia.
Qed.

(** ** [_update_streak] against the state machine *)

Lemma _update_streak_fields today s :
  streak_fields (_update_streak today s) =
  streak_transition (classify (last_activity_date s) today) today
    (streak_fields s).
Proof.
  unfold _update_streak, classify, streak_fields.
  destruct (last_activity_date s) as [d|] eqn:Hlast; [|reflexivity].
  destruct (decide (d = today)) as [->|Hne].
  - rewrite bool_decide_eq_true_2 by reflexivity. simpl. rewrite Hlast. reflexivity.
  - rewrite bool_decide_eq_false_2 by exact Hne.
    destruct (decide (today - d = 1)) as [Hone|Hgap].
    + rewrite bool_decide_eq_true_2 by exact Hone. simpl.
      rewrite Z.gtb_ltb.
      destruct (Z.ltb_spec (longest_streak_days s) (streak_days s + 1));
        repeat f_equal; lia.
    + rewrite bool_decide_eq_false_2 by exact Hgap. reflexivity.
Qed.

Lemma _update_streak_other_fields today s :
  other_fields (_update_streak today s) = other_fields s.
Proof.
  unfold _update_streak.
  destruct (last_activity_date s) as [d|]; [|reflexivity].
  repeat case_bool_decide; reflexivity.
Qed.

Lemma update_from_batches_streak_fields objects today s :
  streak_fields (update_from_batches objects today s) =
  streak_fields (_update_streak today s).
Proof.
  unfold update_from_batches. rewrite !_update_streak_fields. reflexivity.
Qed.

(** ** One engine run, step by step *)

Lemma update_from_batches_steps objects today s :
  update_from_batches objects today s =
  _update_streak today (_update_gamification_elements (after_aggregation objects s)).
Proof. reflexivity. Qed.

Lemma update_from_batches_other_fields objects today s :
  other_fields (update_from_batches objects today s) =
  other_fields (_update_gamification_elements (after_aggregation objects s)).
Proof. rewrite update_from_batches_steps. apply _update_streak_other_fields. Qed.

Ltac streak_frame :=
  rewrite update_from_batches_steps;
  match goal with
  | |- ?f (_update_streak ?today ?x) = _ =>
      transitivity (f x);
      [ generalize x; intros x'; unfold _update_streak;
        destruct (last_activity_date x'); repeat case_bool_decide;
        reflexivity
      | reflexivity ]
  end.

Section RunFields.
Variables (objects : list TextileBatch) (today : date) (s : EcoScore).

Let s' := update_from_batches objects today s.
Let a := after_aggregation objects s.

Lemma run_total_weight_kg : total_weight_kg s' = total_weight_kg a.
Proof. subst s' a. streak_frame. Qed.

Lemma run_total_batches : total_batches s' = total_batches a.
Proof. subst s' a. streak_frame. Qed.

Lemma run_impact :
  total_co2_saved_kg s' = total_co2_saved_kg a ∧
  total_water_saved_liters s' = total_water_saved_liters a ∧
  total_energy_saved_kwh s' = total_energy_saved_kwh a.
Proof. subst s' a. repeat apply conj; streak_frame. Qed.

Lemma run_points : points s' = int (total_weight_kg s' * 10)%Q.
Proof. rewrite run_total_weight_kg. subst s' a. streak_frame. Qed.

Lemma run_level :
  level s' = level_loop (points s') (level s) (enumerate level_thresholds).
Proof. rewrite run_points, run_total_weight_kg. subst s' a. streak_frame. Qed.

Lemma run_badges : badges s' = badges (_update_gamification_elements a).
Proof. subst s' a. streak_frame. Qed.

Lemma run_next_badge_progress :
  next_badge_progress s' =
  progress_loop (total_weight_kg s') (badges s') next_badge_thresholds.
Proof. rewrite run_badges, run_total_weight_kg. subst s' a. streak_frame. Qed.
End RunFields.

(** The badges of a run are the ones warranted by the aggregated weight and
    count of this run and by the [streak_days] the object holds when
    [_update_gamification_elements] is called, which is the value on entry. *)
Lemma elem_of_update_from_batches_badges objects today s b :
  b ∈ badges (update_from_batches objects today s) ↔
  warranted (total_weight_kg (update_from_batches objects today s))
            (total_batches (update_from_batches objects today s))
            (streak_days s) b.
Proof.
  rewrite run_badges, run_total_weight_kg, run_total_batches.
  rewrite elem_of_run_badges. reflexivity.
Qed.

(** The specification's scenario: 10.00 kg in one batch, first activity. *)
Example first_activity_scenario :
  let s := update_from_batches [batch10] 5 (create_eco_score 1) in
  points s = 100 ∧ level s = 2 ∧
  badges s = {[ "first_step"; "eco_starter" ]} ∧
  (next_badge_progress s == 2 # 10)%Q ∧
  streak_days s = 1 ∧ longest_streak_days s = 1.
Proof. cbv zeta. repeat apply conj; vm_compute; reflexivity. Qed.

(** ** Points and level *)

(** C2. For a non-negative total weight, one engine run sets
    [points = floor(total_weight_kg * 10)] and sets [level] to the number of
    entries of the threshold table that are [<= points]; in particular
    [points < 100] gives level 1. *)
Theorem points_floor_level_count objects today s :
  let s' := update_from_batches objects today s in
  (0 <= total_weight_kg s')%Q →
  points s' = Qfloor (total_weight_kg s' * 10) ∧
  level s' = count_le (points s')
               [0; 100; 300; 600; 1000; 1500; 2100; 2800; 3600; 4500; 5500] ∧
  (points s' < 100 → level s' = 1).
Proof.
  change [0; 100; 300; 600; 1000; 1500; 2100; 2800; 3600; 4500; 5500]
    with level_thresholds.
  intros s'. unfold s'. rewrite run_level, run_points. fold s'.
  set (w := total_weight_kg s'). intros Hw.
  assert (Hpts : 0 <= int (w * 10)%Q)
    by (apply int_nonneg, times_ten_nonneg, Hw).
  split; [apply int_nonneg_floor, times_ten_nonneg, Hw|].
  rewrite level_loop_count by exact Hpts.
  split; [reflexivity|].
  intros Hlt. unfold level_thresholds. rewrite count_le_cons.
  rewrite count_le_above by (repeat constructor; lia).
  destruct (Z.leb_spec 0 (int (w * 10)%Q)); lia.
Qed.

Lemma points_floor_level_count_witness :
  let s' := update_from_batches [recycled_batch (15 # 2)%Q] 5
              (create_eco_score 1) in
  ((0 <= total_weight_kg s')%Q ∧ points s' < 100) ∧
  points s' = Qfloor (total_weight_kg s' * 10) ∧ points s' = 75 ∧
  level s' = 1.
Proof.
  intros s'.
  assert (Hw : (0 <= total_weight_kg s')%Q) by (vm_compute; discriminate).
  assert (Hlt : points s' < 100) by reflexivity.
  destruct (points_floor_level_count [recycled_batch (15 # 2)%Q] 5
              (create_eco_score 1) Hw) as (Hpoints & _ & Hlevel).
  repeat apply conj;
    [exact Hw|exact Hlt|exact Hpoints|reflexivity|exact (Hlevel Hlt)].
Defined.

(** C10. The level of a run never exceeds 11, the length of the threshold
    table, and [points >= 5500] gives exactly level 11.  (With negative
    points the loop assigns nothing and the stored level, itself at most 11,
    is kept.) *)
Theorem level_at_most_eleven objects today s :
  let s' := update_from_batches objects today s in
  Z.of_nat (length level_thresholds) = 11 ∧
  (level s <= 11 ∨ 0 <= points s' → level s' <= 11) ∧
  (5500 <= points s' → level s' = 11).
Proof.
  intros s'. split; [reflexivity|].
  unfold s'. rewrite run_level. fold s'.
  set (p := points s'). split.
  - intros Hcase. destruct (Z.lt_ge_cases p 0) as [Hneg|Hpos].
    + rewrite level_loop_negative by exact Hneg. lia.
    + rewrite level_loop_count by exact Hpos.
      apply (count_le_length p level_thresholds).
  - intros Hp. rewrite level_loop_count by lia.
    rewrite count_le_all; [reflexivity|].
    unfold level_thresholds. repeat constructor; lia.
Qed.

Lemma level_at_most_eleven_witness :
  let s := create_eco_score 1 in
  let s' := update_from_batches [recycled_batch 600%Q] 5 s in
  ((level s <= 11 ∨ 0 <= points s') ∧ 5500 <= points s') ∧
  points s' = 6000 ∧ level s' <= 11 ∧ level s' = 11.
Proof.
  intros s s'.
  assert (Hcase : level s <= 11 ∨ 0 <= points s')
    by (left; vm_compute; discriminate).
  assert (Hbig : 5500 <= points s') by (vm_compute; discriminate).
  destruct (level_at_most_eleven [recycled_batch 600%Q] 5 s)
    as (_ & Hcap & Htop).
  repeat apply conj;
    [exact Hcase|exact Hbig|reflexivity|exact (Hcap Hcase)|exact (Htop Hbig)].
Defined.

(** C8 as stated fails: points and level are recomputed from the total
    weight of the rows that pass the filter now, so deactivating the only
    batch of a level-2 user brings the points from 100 to 0 and the level
    from 2 to 1. *)
Lemma points_and_level_can_decrease :
  let s := update_from_batches [batch10] 1 (create_eco_score 1) in
  let s' := update_from_batches [batch10_deactivated] 2 s in
  points s = 100 ∧ level s = 2 ∧ points s' = 0 ∧ level s' = 1 ∧
  ¬ (points s <= points s' ∧ level s <= level s').
Proof.
  cbv zeta. repeat apply conj; try (vm_compute; reflexivity).
  vm_compute. intros [H _]. apply H. reflexivity.
Qed.

(** C8, amended. Every run recomputes points and level from its own total
    weight (for a non-negative total: points = floor(total_weight_kg * 10)
    and level = the count of thresholds <= points, whatever was stored), and
    they are monotone in it: when the total weight of a run is not below the
    non-negative total weight of the previous run, neither points nor level
    decrease. *)
Theorem points_level_monotone_in_weight objects1 today1 objects2 today2 s :
  let s1 := update_from_batches objects1 today1 s in
  let s2 := update_from_batches objects2 today2 s1 in
  ((0 <= total_weight_kg s2)%Q →
   points s2 = Qfloor (total_weight_kg s2 * 10) ∧
   level s2 = count_le (points s2) level_thresholds) ∧
  ((0 <= total_weight_kg s1)%Q →
   (total_weight_kg s1 <= total_weight_kg s2)%Q →
   points s1 <= points s2 ∧ level s1 <= level s2).
Proof.
  intros s1 s2.
  assert (Hrun : ∀ objects today s0,
            (0 <= total_weight_kg (update_from_batches objects today s0))%Q →
            0 <= points (update_from_batches objects today s0) ∧
            points (update_from_batches objects today s0) =
              Qfloor (total_weight_kg (update_from_batches objects today s0) * 10) ∧
            level (update_from_batches objects today s0) =
              count_le (points (update_from_batches objects today s0))
                       level_thresholds).
  { intros objects today s0 Hw.
    assert (Hp : 0 <= points (update_from_batches objects today s0)).
    { rewrite run_points. apply int_nonneg, times_ten_nonneg, Hw. }
    split; [exact Hp|]. split.
    - rewrite run_points at 1. apply int_nonneg_floor, times_ten_nonneg, Hw.
    - rewrite run_level at 1. apply level_loop_count, Hp. }
  split.
  - intros H2. destruct (Hrun objects2 today2 s1 H2) as (_ & Hp & Hl).
    split; [exact Hp|exact Hl].
  - intros H1 Hle.
    assert (H2 : (0 <= total_weight_kg s2)%Q)
      by (eapply Qle_trans; eassumption).
    destruct (Hrun objects1 today1 s H1) as (_ & Hp1 & Hl1).
    destruct (Hrun objects2 today2 s1 H2) as (_ & Hp2 & Hl2).
    fold s1 in Hp1, Hl1. fold s2 in Hp2, Hl2.
    assert (Hp : points s1 <= points s2).
    { rewrite Hp1, Hp2. apply Qfloor_resp_le, times_ten_le, Hle. }
    split; [exact Hp|]. rewrite Hl1, Hl2. apply count_le_mono, Hp.
Qed.

Lemma points_level_monotone_in_weight_witness :
  let s1 := update_from_batches [batch10] 1 (create_eco_score 1) in
  let s2 := update_from_batches [batch10; batch10] 2 s1 in
  ((0 <= total_weight_kg s2)%Q ∧ (0 <= total_weight_kg s1)%Q ∧
   (total_weight_kg s1 <= total_weight_kg s2)%Q) ∧
  (points s2 = Qfloor (total_weight_kg s2 * 10) ∧
   level s2 = count_le (points s2) level_thresholds) ∧
  points s1 <= points s2 ∧ level s1 <= level s2.
Proof.
  intros s1 s2.
  assert (H2 : (0 <= total_weight_kg s2)%Q) by (vm_compute; discriminate).
  assert (H1 : (0 <= total_weight_kg s1)%Q) by (vm_compute; discriminate).
  assert (Hle : (total_weight_kg s1 <= total_weight_kg s2)%Q)
    by (vm_compute; discriminate).
  destruct (points_level_monotone_in_weight [batch10] 1 [batch10; batch10] 2
              (create_eco_score 1)) as (Hnew & Hmono).
  split; [split; [exact H2|split; [exact H1|exact Hle]]|].
  split; [exact (Hnew H2)|exact (Hmono H1 Hle)].
Defined.

(** ** Badges *)

(** C1 as stated fails: the badge list is rebuilt from an empty list in
    every run and overwrites the stored set.  Eight consecutive daily runs
    and a run after a gap leave [weekly_streak] in the set; the next run,
    with the same batch (weight and count unchanged), removes it. *)
Lemma badge_removed_by_later_run :
  let s := run_all (daily [batch10] [1; 2; 3; 4; 5; 6; 7; 8; 20])
                   (create_eco_score 1) in
  let s' := update_from_batches [batch10] 21 s in
  "weekly_streak" ∈ badges s ∧
  total_weight_kg s' = total_weight_kg s ∧
  total_batches s' = total_batches s ∧
  "weekly_streak" ∉ badges s'.
Proof.
  cbv zeta. repeat apply conj; try (vm_compute; reflexivity).
  vm_compute. discriminate.
Qed.

(** C1, amended. Every engine run rebuilds the badge set from scratch
    (replacement, not union): the resulting set does not depend on the
    stored one and contains nothing but the engine's twelve codes; a weight
    or batch-count badge is in it exactly when its inclusive threshold is met
    by this run's total weight or batch count; a streak badge is in it when
    its threshold is met by [streak_days] both before and after the run, and
    is not when it is met by neither.  Hence, across two successive runs in
    which total weight, batch count and [streak_days] do not decrease, every
    badge of the earlier run is still there after the later one. *)
Theorem badges_rebuilt_and_monotone objects1 today1 objects2 today2 s :
  let s1 := update_from_batches objects1 today1 s in
  let s2 := update_from_batches objects2 today2 s1 in
  (∀ stored,
     badges (update_from_batches objects2 today2 (with_badges stored s1)) =
     badges s2) ∧
  (∀ b, b ∈ badges s2 → b ∈ known_badges) ∧
  (∀ b t, (b, t) ∈ next_badge_thresholds →
     b ∈ badges s2 ↔ (inject_Z t <= total_weight_kg s2)%Q) ∧
  (∀ b t, (b, t) ∈ batch_badge_thresholds →
     b ∈ badges s2 ↔ t <= total_batches s2) ∧
  (∀ b t, (b, t) ∈ streak_badge_thresholds →
     (t <= streak_days s1 → t <= streak_days s2 → b ∈ badges s2) ∧
     (streak_days s1 < t → streak_days s2 < t → b ∉ badges s2)) ∧
  ((total_weight_kg s1 <= total_weight_kg s2)%Q →
   total_batches s1 <= total_batches s2 →
   streak_days s <= streak_days s1 → streak_days s1 <= streak_days s2 →
   badges s1 ⊆ badges s2).
Proof.
  intros s1 s2.
  assert (Hin : ∀ b, b ∈ badges s2 ↔
            warranted (total_weight_kg s2) (total_batches s2)
                      (streak_days s1) b)
    by (intros b; apply elem_of_update_from_batches_badges).
  repeat apply conj.
  - intros stored. apply set_eq. intros b.
    rewrite Hin, elem_of_update_from_batches_badges.
    unfold s2. rewrite !run_total_weight_kg, !run_total_batches. reflexivity.
  - intros b Hb. apply Hin in Hb. unfold known_badges.
    apply list_elem_of_fmap.
    destruct Hb as [(t & Ht & _)|[(t & Ht & _)|(t & Ht & _)]];
      exists (b, t); (split; [reflexivity|]); rewrite !elem_of_app; tauto.
  - intros b t Hb. rewrite Hin. apply (weight_badge_warranted _ _ _ b t Hb).
  - intros b t Hb. rewrite Hin. apply (batch_badge_warranted _ _ _ b t Hb).
  - intros b t Hb. rewrite Hin, (streak_badge_warranted _ _ _ b t Hb).
    split; [intros H1 _; exact H1|intros H1 _; lia].
  - intros Hw Hn Hk _ b. rewrite Hin. unfold s1.
    rewrite elem_of_update_from_batches_badges. fold s1.
    apply warranted_mono; assumption.
Qed.

Lemma badges_rebuilt_and_monotone_witness :
  let s := create_eco_score 1 in
  let s1 := update_from_batches [batch10] 1 s in
  let s2 := update_from_batches [batch10; batch10] 2 s1 in
  ((total_weight_kg s1 <= total_weight_kg s2)%Q ∧
   total_batches s1 <= total_batches s2 ∧
   streak_days s <= streak_days s1 ∧ streak_days s1 <= streak_days s2) ∧
  badges s1 ⊆ badges s2 ∧
  badges (update_from_batches [batch10; batch10] 2
            (with_badges {[ "legacy_badge" ]} s1)) = badges s2.
Proof.
  intros s s1 s2.
  assert (Hw : (total_weight_kg s1 <= total_weight_kg s2)%Q)
    by (vm_compute; discriminate).
  assert (Hn : total_batches s1 <= total_batches s2)
    by (vm_compute; discriminate).
  assert (Hk : streak_days s <= streak_days s1) by (vm_compute; discriminate).
  assert (Hk' : streak_days s1 <= streak_days s2)
    by (vm_compute; discriminate).
  destruct (badges_rebuilt_and_monotone [batch10] 1 [batch10; batch10] 2 s)
    as (Hstored & _ & _ & _ & _ & Hmono).
  split; [split; [exact Hw|split; [exact Hn|split; [exact Hk|exact Hk']]]|].
  split; [exact (Hmono Hw Hn Hk Hk')|exact (Hstored {[ "legacy_badge" ]})].
Defined.

(** C3 fails on the code: [update_from_batches] calls
    [_update_gamification_elements] before [_update_streak], so the streak
    badges are evaluated against the [streak_days] left by the previous run.
    The seventh consecutive daily run brings the streak from 6 to 7 and does
    not award [weekly_streak]. *)
Theorem streak_badge_not_awarded_in_same_run :
  let s := run_all (daily [batch10] [1; 2; 3; 4; 5; 6]) (create_eco_score 1) in
  let s' := update_from_batches [batch10] 7 s in
  streak_days s = 6 ∧ streak_days s' = 7 ∧ "weekly_streak" ∉ badges s'.
Proof.
  cbv zeta. repeat apply conj; try (vm_compute; reflexivity).
  vm_compute. discriminate.
Qed.

(** C5 fails on the code, by the same ordering: repeating the seventh daily
    run on the same day and the same batches yields a different object, the
    repeated run now awarding [weekly_streak]. *)
Theorem second_run_same_day_differs :
  let s := run_all (daily [batch10] [1; 2; 3; 4; 5; 6]) (create_eco_score 1) in
  let s1 := update_from_batches [batch10] 7 s in
  let s2 := update_from_batches [batch10] 7 s1 in
  ("weekly_streak" ∉ badges s1) ∧ "weekly_streak" ∈ badges s2 ∧ s2 ≠ s1.
Proof.
  cbv zeta.
  assert (Hout : "weekly_streak" ∉ badges
            (update_from_batches [batch10] 7
               (run_all (daily [batch10] [1; 2; 3; 4; 5; 6])
                  (create_eco_score 1))))
    by (vm_compute; discriminate).
  assert (Hin : "weekly_streak" ∈ badges
            (update_from_batches [batch10] 7
               (update_from_batches [batch10] 7
                  (run_all (daily [batch10] [1; 2; 3; 4; 5; 6])
                     (create_eco_score 1)))))
    by (vm_compute; reflexivity).
  repeat apply conj; [exact Hout|exact Hin|].
  intros Heq. rewrite Heq in Hin. exact (Hout Hin).
Qed.

(** ** Next-badge progress *)

Lemma next_badge_thresholds_ascending :
  StronglySorted (λ x y : string * Z, x.2 < y.2) next_badge_thresholds.
Proof. unfold next_badge_thresholds. repeat constructor; simpl; lia. Qed.

(** On a table in ascending threshold order, the loop stops at the absent
    badge all of whose predecessors are present. *)
Lemma progress_loop_ascending w (bs : gset string) items b t :
  StronglySorted (λ x y : string * Z, x.2 < y.2) items →
  (b, t) ∈ items → (b ∉ bs) →
  (∀ b' t', (b', t') ∈ items → t' < t → b' ∈ bs) →
  progress_loop w bs items = (w / inject_Z t)%Q.
Proof.
  induction 1 as [|[b0 t0] items Hs IH Hall]; intros Hin Hb Hprev.
  - apply elem_of_nil in Hin. destruct Hin.
  - apply elem_of_cons in Hin as [Heq|Hin].
    + injection Heq as <- <-. simpl.
      rewrite bool_decide_eq_true_2 by exact Hb. reflexivity.
    + assert (Hlt : t0 < t).
      { rewrite Forall_forall in Hall. apply (Hall (b, t) Hin). }
      simpl. rewrite bool_decide_eq_false_2.
      * apply IH; [exact Hin|exact Hb|].
        intros b' t' Hin' Hlt'. apply (Hprev b' t'); [|exact Hlt'].
        apply elem_of_cons. right. exact Hin'.
      * intros Hout. apply Hout. apply (Hprev b0 t0); [|exact Hlt].
        apply elem_of_cons. left. reflexivity.
Qed.

(** A weight badge missing from the set of a run has a threshold above the
    run's weight. *)
Lemma absent_weight_badge_above objects today s b t :
  (b, t) ∈ next_badge_thresholds →
  b ∉ badges (update_from_batches objects today s) →
  (total_weight_kg (update_from_batches objects today s) < inject_Z t)%Q.
Proof.
  intros Hin Hout. apply Qnot_le_lt. intros Hle. apply Hout.
  apply elem_of_update_from_batches_badges.
  apply (weight_badge_warranted _ _ _ b t Hin). exact Hle.
Qed.

Lemma quotient_below_one (w : Q) (t : Z) :
  0 < t → (w < inject_Z t)%Q → (w / inject_Z t < 1)%Q.
Proof.
  intros Ht Hlt.
  assert (Hpos : (0 < inject_Z t)%Q).
  { change 0%Q with (inject_Z 0). rewrite <- Zlt_Qlt. exact Ht. }
  apply Qlt_shift_div_r; [exact Hpos|]. rewrite Qmult_1_l. exact Hlt.
Qed.

Lemma quotient_sign (w : Q) (t : Z) :
  0 < t →
  ((0 <= w)%Q → (0 <= w / inject_Z t)%Q) ∧
  ((w < 0)%Q → (w / inject_Z t < 0)%Q).
Proof.
  intros Ht.
  assert (Hpos : (0 < inject_Z t)%Q).
  { change 0%Q with (inject_Z 0). rewrite <- Zlt_Qlt. exact Ht. }
  split; intros Hw.
  - apply Qle_shift_div_l; [exact Hpos|]. rewrite Qmult_0_l. exact Hw.
  - apply Qlt_shift_div_r; [exact Hpos|]. rewrite Qmult_0_l. exact Hw.
Qed.

(** C6 as stated fails: nothing in the run keeps the total weight, hence the
    progress, from being negative.  With one recycled batch of -0.05 kg the
    run gives 0 points, level 1 and a progress of -0.05, outside [0, 1]. *)
Lemma next_badge_progress_can_be_negative :
  let s' := update_from_batches [recycled_batch (-1 # 20)%Q] 5
              (create_eco_score 1) in
  points s' = 0 ∧ level s' = 1 ∧ badges s' = ∅ ∧
  (next_badge_progress s' == -1 # 20)%Q ∧
  ¬ (0 <= next_badge_progress s')%Q.
Proof.
  intros s'. repeat apply conj; try (vm_compute; reflexivity).
  vm_compute. intros H. apply H. reflexivity.
Qed.

(** C6, amended. After every run the progress is the total weight divided by
    the threshold of the first weight badge, in ascending threshold order,
    that is absent from the resulting badge set, and this value is below 1;
    it is 1 when the six weight badges are present; so it never exceeds 1.
    It is at least 0 exactly when the run's total weight is: non-negative
    for a non-negative total, negative for a negative one. *)
Theorem next_badge_progress_first_absent objects today s :
  let s' := update_from_batches objects today s in
  (∀ b t, (b, t) ∈ next_badge_thresholds → (b ∉ badges s') →
     (∀ b' t', (b', t') ∈ next_badge_thresholds → t' < t → b' ∈ badges s') →
     next_badge_progress s' = (total_weight_kg s' / inject_Z t)%Q ∧
     (next_badge_progress s' < 1)%Q) ∧
  ((∀ b t, (b, t) ∈ next_badge_thresholds → b ∈ badges s') →
     next_badge_progress s' = 1%Q) ∧
  (next_badge_progress s' <= 1)%Q ∧
  ((0 <= total_weight_kg s')%Q → (0 <= next_badge_progress s')%Q) ∧
  ((total_weight_kg s' < 0)%Q → (next_badge_progress s' < 0)%Q).
Proof.
  intros s'.
  assert (Hprog : next_badge_progress s' =
            progress_loop (total_weight_kg s') (badges s') next_badge_thresholds)
    by apply run_next_badge_progress.
  assert (Hcases :
            next_badge_progress s' = 1%Q ∧
            (inject_Z 1000 <= total_weight_kg s')%Q ∨
            ∃ b t, (b, t) ∈ next_badge_thresholds ∧ 0 < t ∧
                   (total_weight_kg s' < inject_Z t)%Q ∧
                   next_badge_progress s' =
                   (total_weight_kg s' / inject_Z t)%Q).
  { rewrite Hprog.
    destruct (progress_loop_cases (total_weight_kg s') (badges s')
                next_badge_thresholds)
      as [[Hall ->]|(pre & b & t & post & Hitems & _ & Hout & ->)].
    - left. split; [reflexivity|].
      rewrite Forall_forall in Hall.
      assert (Hmem : ("eco_legend", 1000) ∈ next_badge_thresholds).
      { unfold next_badge_thresholds. apply list_elem_of_In. simpl. auto 10. }
      assert (Hlegend : "eco_legend" ∈ badges s') by apply (Hall _ Hmem).
      apply elem_of_update_from_batches_badges in Hlegend.
      exact (proj1 (weight_badge_warranted _ _ _ "eco_legend" 1000 Hmem)
               Hlegend).
    - right. exists b, t.
      assert (Hin : (b, t) ∈ next_badge_thresholds).
      { rewrite Hitems. apply elem_of_app. right. apply elem_of_cons. left.
        reflexivity. }
      repeat apply conj; [exact Hin| |  |reflexivity].
      + apply (next_badge_thresholds_positive b t Hin).
      + apply (absent_weight_badge_above objects today s b t Hin Hout). }
  repeat apply conj.
  - intros b t Hin Hout Hprev. rewrite Hprog.
    rewrite (progress_loop_ascending _ _ _ b t
               next_badge_thresholds_ascending Hin Hout Hprev).
    split; [reflexivity|].
    apply quotient_below_one.
    + apply (next_badge_thresholds_positive b t Hin).
    + apply (absent_weight_badge_above objects today s b t Hin Hout).
  - intros Hall. rewrite Hprog. apply progress_loop_all.
    apply Forall_forall. intros [b t] Hin. apply (Hall b t Hin).
  - destruct Hcases as [[-> _]|(b & t & _ & Ht & Hlt & ->)].
    + apply Qle_refl.
    + apply Qlt_le_weak, quotient_below_one; assumption.
  - intros Hw. destruct Hcases as [[-> _]|(b & t & _ & Ht & _ & ->)].
    + discriminate.
    + apply (quotient_sign _ t Ht), Hw.
  - intros Hw. destruct Hcases as [[_ Hbig]|(b & t & _ & Ht & _ & ->)].
    + exfalso. apply (Qlt_irrefl 0).
      eapply Qle_lt_trans; [|exact Hw].
      eapply Qle_trans; [|exact Hbig]. discriminate.
    + apply (quotient_sign _ t Ht), Hw.
Qed.

Lemma next_badge_progress_first_absent_witness :
  let s' := update_from_batches [batch10] 5 (create_eco_score 1) in
  ((0 <= total_weight_kg s')%Q ∧
   ("eco_enthusiast", 50) ∈ next_badge_thresholds ∧
   ("eco_enthusiast" ∉ badges s')) ∧
  (next_badge_progress s' = (total_weight_kg s' / inject_Z 50)%Q ∧
   (next_badge_progress s' < 1)%Q) ∧
  (0 <= next_badge_progress s')%Q.
Proof.
  intros s'.
  assert (Hw : (0 <= total_weight_kg s')%Q) by (vm_compute; discriminate).
  assert (Hin : ("eco_enthusiast", 50) ∈ next_badge_thresholds)
    by (unfold next_badge_thresholds; apply list_elem_of_In; simpl; auto 10).
  assert (Hout : "eco_enthusiast" ∉ badges s') by (vm_compute; discriminate).
  destruct (next_badge_progress_first_absent [batch10] 5 (create_eco_score 1))
    as (Hfirst & _ & _ & Hlow & _).
  split; [split; [exact Hw|split; [exact Hin|exact Hout]]|].
  split; [|exact (Hlow Hw)].
  apply (Hfirst "eco_enthusiast" 50 Hin Hout).
  intros b' t' Hin' Hlt. unfold next_badge_thresholds in Hin'.
  split_table Hin'; try lia; vm_compute; reflexivity.
Defined.

(** In the fixture the first absent weight badge is [eco_enthusiast] (50 kg)
    and the progress is 10 / 50. *)
Example progress_after_ten_kg :
  let s' := update_from_batches [batch10] 5 (create_eco_score 1) in
  ("eco_enthusiast" ∉ badges s') ∧
  next_badge_progress s' = (total_weight_kg s' / 50)%Q.
Proof.
  cbv zeta. split; [vm_compute; discriminate|vm_compute; reflexivity].
Qed.

(** ** The streak *)

Lemma classify_broken last today :
  classify last today = broken ↔
  ∃ d, last = Some d ∧ (today - d > 1 ∨ today < d).
Proof.
  unfold classify. destruct last as [d|].
  - destruct (decide (d = today)) as [Hsame|Hdiff];
      [|destruct (decide (today - d = 1)) as [Hone|Hgap]].
    + split; [discriminate|]. intros (d' & Hd & Hcase).
      injection Hd as <-. lia.
    + split; [discriminate|]. intros (d' & Hd & Hcase).
      injection Hd as <-. lia.
    + split; [|reflexivity]. intros _. exists d. split; [reflexivity|lia].
  - split; [discriminate|]. intros (d & Hd & _). discriminate Hd.
Qed.

(** C4. The streak update is the four-case state machine of the
    specification: it changes only the three streak columns, it changes them
    by the transition of the case that [last_activity_date] and today
    select, and an engine run applies that transition exactly once. *)
Theorem streak_update_is_state_machine objects today s :
  let c := classify (last_activity_date s) today in
  streak_fields (_update_streak today s) =
    streak_transition c today (streak_fields s) ∧
  other_fields (_update_streak today s) = other_fields s ∧
  streak_fields (update_from_batches objects today s) =
    streak_transition c today (streak_fields s).
Proof.
  intros c. split; [apply _update_streak_fields|].
  split; [apply _update_streak_other_fields|].
  rewrite update_from_batches_streak_fields. apply _update_streak_fields.
Qed.

(** The two streak scenarios of the specification (D = 10): a trigger on
    D+1 from 5/5, and a trigger on D+5 from 6/6. *)
Example consecutive_day_scenario :
  let s := set_streak 5 5 (Some 10) (create_eco_score 1) in
  streak_fields (_update_streak 11 s) = (6, 6, Some 11).
Proof. reflexivity. Qed.

Example broken_streak_scenario :
  let s := set_streak 6 6 (Some 10) (create_eco_score 1) in
  streak_fields (_update_streak 15 s) = (1, 6, Some 15).
Proof. reflexivity. Qed.

Lemma create_eco_score_invariant u : streak_invariant (create_eco_score u).
Proof. split; [reflexivity|]. intros H. destruct H. reflexivity. Qed.

Lemma update_from_batches_invariant objects today s :
  streak_invariant s → streak_invariant (update_from_batches objects today s).
Proof.
  unfold streak_invariant. intros [Hle Hone].
  pose proof (update_from_batches_streak_fields objects today s) as Hf.
  rewrite _update_streak_fields in Hf. unfold streak_fields, classify in Hf.
  destruct (last_activity_date s) as [d|] eqn:Hlast.
  - assert (1 <= longest_streak_days s) by (apply Hone; discriminate).
    repeat case_decide; simpl in Hf; injection Hf as -> -> ->;
      split; try lia; intros _; lia.
  - simpl in Hf. injection Hf as -> -> ->. split; [lia|]. intros _. lia.
Qed.

Lemma run_all_invariant runs : ∀ s,
  streak_invariant s → streak_invariant (run_all runs s).
Proof.
  induction runs as [|[objects today] runs IH]; intros s Hs; [exact Hs|].
  apply IH, update_from_batches_invariant, Hs.
Qed.

(** C7. Starting from a freshly created EcoScore, after any sequence of
    engine runs [longest_streak_days >= streak_days]. *)
Theorem longest_streak_dominates u runs :
  let s := run_all runs (create_eco_score u) in
  streak_days s <= longest_streak_days s.
Proof.
  intros s. apply (run_all_invariant runs (create_eco_score u)).
  apply create_eco_score_invariant.
Qed.

(** The starting point matters: from a row with a recorded date and a zero
    maximum, a broken streak leaves 1 > 0. *)
Example broken_streak_from_unreachable_row :
  let s := set_streak 0 0 (Some 1) (create_eco_score 1) in
  streak_fields (update_from_batches [] 9 s) = (1, 0, Some 9).
Proof. reflexivity. Qed.

(** ** The empty batch set *)

(** C9 as stated fails: the badge set is not always empty.  With no batch
    at all, seven daily runs build a 7-day streak and the eighth run awards
    [weekly_streak]. *)
Lemma empty_batch_set_streak_badge :
  let s := run_all (daily [] [1; 2; 3; 4; 5; 6; 7]) (create_eco_score 1) in
  let s' := update_from_batches [] 8 s in
  filter_batches (user s) [] = [] ∧ total_batches s' = 0 ∧
  "weekly_streak" ∈ badges s' ∧ badges s' ≠ ∅.
Proof.
  cbv zeta.
  assert (Hin : "weekly_streak" ∈ badges
            (update_from_batches [] 8
               (run_all (daily [] [1; 2; 3; 4; 5; 6; 7]) (create_eco_score 1))))
    by (vm_compute; reflexivity).
  repeat apply conj; [reflexivity|reflexivity|exact Hin|].
  intros Hempty. rewrite Hempty in Hin. set_solver.
Qed.

(** C9, amended. When no batch passes the filter, the run yields zero
    count, weight and impact totals, 0 points, level 1 and progress 0; its
    badge set holds no weight or batch-count badge, only streak badges, and
    is empty when [streak_days] is below 7 before and after the run. *)
Theorem empty_batch_set_run objects today s :
  let s' := update_from_batches objects today s in
  filter_batches (user s) objects = [] →
  total_batches s' = 0 ∧ total_weight_kg s' = 0%Q ∧
  total_co2_saved_kg s' = 0%Q ∧ total_water_saved_liters s' = 0%Q ∧
  total_energy_saved_kwh s' = 0%Q ∧
  points s' = 0 ∧ level s' = 1 ∧ next_badge_progress s' = 0%Q ∧
  (∀ b, b ∈ badges s' → ∃ t, (b, t) ∈ streak_badge_thresholds) ∧
  (streak_days s < 7 → streak_days s' < 7 → badges s' = ∅).
Proof.
  intros s' Hempty.
  assert (Ha : after_aggregation objects s =
               set_aggregates 0 0%Q 0%Q 0%Q 0%Q (0 / 20)%Q s).
  { unfold after_aggregation. rewrite Hempty. reflexivity. }
  assert (Hn : total_batches s' = 0)
    by (unfold s'; rewrite run_total_batches, Ha; reflexivity).
  assert (Hw : total_weight_kg s' = 0%Q)
    by (unfold s'; rewrite run_total_weight_kg, Ha; reflexivity).
  assert (Hp : points s' = 0)
    by (unfold s'; rewrite run_points; fold s'; rewrite Hw; reflexivity).
  assert (Hb : ∀ b, b ∈ badges s' → ∃ t, (b, t) ∈ streak_badge_thresholds ∧
                                          t <= streak_days s).
  { intros b Hin. apply elem_of_update_from_batches_badges in Hin.
    fold s' in Hin. rewrite Hw, Hn in Hin.
    destruct Hin as [(t & Hin & Ht)|[(t & Hin & Ht)|(t & Hin & Ht)]].
    - pose proof (next_badge_thresholds_positive b t Hin) as Hpos.
      change 0%Q with (inject_Z 0) in Ht. rewrite <- Zle_Qle in Ht. lia.
    - unfold batch_badge_thresholds in Hin. split_table Hin; lia.
    - exists t. split; assumption. }
  destruct (run_impact objects today s) as (Hco2 & Hwater & Henergy).
  fold s' in Hco2, Hwater, Henergy. rewrite Ha in Hco2, Hwater, Henergy.
  repeat apply conj; try assumption.
  - unfold s'. rewrite run_level. fold s'. rewrite Hp.
    rewrite level_loop_count by lia. reflexivity.
  - unfold s'. rewrite run_next_badge_progress. fold s'. rewrite Hw.
    unfold next_badge_thresholds. simpl progress_loop.
    rewrite bool_decide_eq_true_2; [reflexivity|].
    intros Hin. apply Hb in Hin as (t & Hin & _).
    unfold streak_badge_thresholds in Hin. split_table Hin.
  - intros b Hin. apply Hb in Hin as (t & Hin & _). exists t. exact Hin.
  - intros Hlow _. apply elem_of_equiv_empty_L. intros b Hin.
    apply Hb in Hin as (t & Hin & Ht).
    unfold streak_badge_thresholds in Hin. split_table Hin; lia.
Qed.

Lemma empty_batch_set_run_witness :
  let s := create_eco_score 1 in
  let s' := update_from_batches [batch10_deactivated] 3 s in
  filter_batches (user s) [batch10_deactivated] = [] ∧
  points s' = 0 ∧ level s' = 1 ∧ badges s' = ∅.
Proof.
  cbv zeta.
  assert (Hempty : filter_batches (user (create_eco_score 1))
                     [batch10_deactivated] = []) by reflexivity.
  split; [exact Hempty|].
  destruct (empty_batch_set_run [batch10_deactivated] 3 (create_eco_score 1)
              Hempty) as (_ & _ & _ & _ & _ & Hp & Hl & _ & _ & Hb).
  repeat apply conj; [exact Hp|exact Hl|].
  apply Hb; vm_compute; reflexivity.
Defined.

(** * Further properties of the engine *)

(** ** The aggregation statements *)

Ltac qring :=
  repeat match goal with
         | |- context [total ?l] =>
             let t := fresh "t" in generalize (total l); intros t
         end;
  unfold Decimal in *; ring.

Lemma Sum_from_some vals : ∀ a,
  ∃ r, foldl sum_step (Some a) vals = Some r ∧ (r == a + total_present vals)%Q.
Proof.
  induction vals as [|[x|] vals IH]; intros a.
  - exists a. split; [reflexivity|]. unfold total_present. csimpl. qring.
  - destruct (IH (a + x)%Q) as (r & Hr & Heq). exists r.
    split; [exact Hr|]. rewrite Heq. unfold total_present. csimpl. qring.
  - destruct (IH a) as (r & Hr & Heq). exists r.
    split; [exact Hr|]. rewrite Heq. unfold total_present. csimpl. qring.
Qed.

Lemma Sum_cases vals :
  (Sum vals = None ∧ (total_present vals == 0)%Q) ∨
  (∃ r, Sum vals = Some r ∧ (r == total_present vals)%Q).
Proof.
  unfold Sum. fold sum_step.
  induction vals as [|[x|] vals IH].
  - left. split; reflexivity.
  - right. destruct (Sum_from_some vals x) as (r & Hr & Heq).
    exists r. split; [exact Hr|]. rewrite Heq. reflexivity.
  - destruct IH as [[Hnone Hzero]|(r & Hr & Heq)].
    + left. split; [exact Hnone|]. unfold total_present in *.
      csimpl. rewrite Hzero. qring.
    + right. exists r. split; [exact Hr|]. rewrite Heq.
      unfold total_present. csimpl. qring.
Qed.

(** [SUM(...) or Decimal('0.00')] is the sum of the non-NULL values. *)
Lemma or_zero_Sum vals : (or_zero (Sum vals) == total_present vals)%Q.
Proof.
  destruct (Sum_cases vals) as [[-> Hzero]|(r & -> & Heq)]; simpl.
  - symmetry. exact Hzero.
  - destruct (Qeq_bool r 0) eqn:Hr; [|exact Heq].
    apply Qeq_bool_iff in Hr. rewrite <- Heq, Hr. reflexivity.
Qed.

Lemma total_present_weights (batches : list TextileBatch) :
  total_present ((λ b, Some (weight_kg b)) <$> batches) =
  total (weight_kg <$> batches).
Proof.
  unfold total_present. rewrite <- list_fmap_compose. reflexivity.
Qed.

Lemma total_present_impact c (batches : list TextileBatch) :
  (total_present (times_coefficient c <$> batches) == impact c batches)%Q.
Proof.
  unfold total_present, impact. rewrite <- list_fmap_compose.
  induction batches as [|b batches IH]; [reflexivity|].
  csimpl. rewrite IH. apply Qplus_comp; [|reflexivity].
  unfold times_coefficient, coefficient_or_zero.
  destruct (material_type b) as [m|]; [destruct (c m)|]; simpl;
    try reflexivity; qring.
Qed.

Lemma total_nonneg (l : list Decimal) :
  Forall (λ x, (0 <= x)%Q) l → (0 <= total l)%Q.
Proof.
  induction 1 as [|x l Hx _ IH]; [discriminate|].
  simpl. change 0%Q with (0 + 0)%Q at 1. apply Qplus_le_compat; assumption.
Qed.

Lemma run_user objects today s :
  user (update_from_batches objects today s) = user s.
Proof. streak_frame. Qed.

Lemma run_trees_equivalent objects today s :
  trees_equivalent (update_from_batches objects today s) =
  (total_co2_saved_kg (update_from_batches objects today s) / 20)%Q.
Proof.
  destruct (run_impact objects today s) as (-> & _ & _). streak_frame.
Qed.

Lemma elem_of_filter_batches u objects b :
  b ∈ filter_batches u objects ↔ passes_filter u b ∧ b ∈ objects.
Proof. unfold filter_batches. apply list_elem_of_filter. Qed.

Lemma run_weight_is_total objects today s :
  (total_weight_kg (update_from_batches objects today s) ==
   total (weight_kg <$> filter_batches (user s) objects))%Q.
Proof.
  rewrite run_total_weight_kg, <- total_present_weights. apply or_zero_Sum.
Qed.

Lemma run_impact_is_total objects today s :
  let s' := update_from_batches objects today s in
  let batches := filter_batches (user s) objects in
  (total_co2_saved_kg s' == impact co2_per_kg batches)%Q ∧
  (total_water_saved_liters s' == impact water_per_kg batches)%Q ∧
  (total_energy_saved_kwh s' == impact energy_per_kg batches)%Q.
Proof.
  intros s' batches.
  destruct (run_impact objects today s) as (Hco2 & Hwater & Henergy).
  fold s' in Hco2, Hwater, Henergy. rewrite Hco2, Hwater, Henergy.
  repeat apply conj; rewrite <- total_present_impact; apply or_zero_Sum.
Qed.

(** X1. A row that is owned by someone else, is not in status RECYCLED or is
    not active has no influence on a run, wherever it sits in the table. *)
Theorem non_matching_row_ignored pre b post today s :
  ¬ passes_filter (user s) b →
  update_from_batches (pre ++ b :: post)%list today s =
  update_from_batches (pre ++ post)%list today s.
Proof.
  intros Hb.
  assert (Hf : filter_batches (user s) (pre ++ b :: post)%list =
               filter_batches (user s) (pre ++ post)%list).
  { unfold filter_batches. rewrite !filter_app.
    rewrite filter_cons_False by exact Hb. reflexivity. }
  unfold update_from_batches. rewrite Hf. reflexivity.
Qed.

Lemma non_matching_row_ignored_witness :
  let s := create_eco_score 1 in
  ¬ passes_filter (user s) batch10_deactivated ∧
  update_from_batches [batch10; batch10_deactivated; batch10] 4 s =
  update_from_batches [batch10; batch10] 4 s.
Proof.
  intros s.
  assert (Hb : ¬ passes_filter (user s) batch10_deactivated).
  { intros (_ & _ & Hactive). discriminate Hactive. }
  split; [exact Hb|].
  apply (non_matching_row_ignored [batch10] batch10_deactivated [batch10] 4 s Hb).
Defined.

(** X2. After a run, [total_batches] is the number of rows that pass the
    filter and [total_weight_kg] is the sum of their weights (0 when there
    is none). *)
Theorem totals_are_count_and_sum objects today s :
  let s' := update_from_batches objects today s in
  let batches := filter_batches (user s) objects in
  total_batches s' = Z.of_nat (length batches) ∧
  (total_weight_kg s' == total (weight_kg <$> batches))%Q.
Proof.
  intros s' batches. split.
  - unfold s'. rewrite run_total_batches. reflexivity.
  - apply run_weight_is_total.
Qed.

(** X3. After a run, each impact total is the sum over the rows that pass
    the filter of weight times the material's coefficient, a missing
    material or coefficient contributing 0; and [trees_equivalent] is the
    CO2 total divided by 20. *)
Theorem impact_totals objects today s :
  let s' := update_from_batches objects today s in
  let batches := filter_batches (user s) objects in
  (total_co2_saved_kg s' == impact co2_per_kg batches)%Q ∧
  (total_water_saved_liters s' == impact water_per_kg batches)%Q ∧
  (total_energy_saved_kwh s' == impact energy_per_kg batches)%Q ∧
  (trees_equivalent s' * 20 == impact co2_per_kg batches)%Q.
Proof.
  intros s' batches.
  destruct (run_impact_is_total objects today s) as (Hco2 & Hwater & Henergy).
  fold s' batches in Hco2, Hwater, Henergy.
  repeat apply conj; [exact Hco2|exact Hwater|exact Henergy|].
  unfold s'. rewrite run_trees_equivalent. fold s'. rewrite <- Hco2.
  unfold Decimal in *. field.
Qed.

Lemma impact_nonneg c (batches : list TextileBatch) :
  Forall (λ b, (0 <= weight_kg b)%Q ∧ (0 <= coefficient_or_zero c b)%Q)
         batches →
  (0 <= impact c batches)%Q.
Proof.
  intros Hall. unfold impact. apply total_nonneg.
  apply Forall_fmap. eapply Forall_impl; [exact Hall|].
  intros b [Hw Hc]. simpl. apply Qmult_le_0_compat; assumption.
Qed.

(** X4. When no row that passes the filter has a negative weight or a
    negative coefficient, the weight, the three impact totals, the trees
    equivalent and the points of the run are all non-negative. *)
Theorem totals_nonnegative objects today s :
  let s' := update_from_batches objects today s in
  Forall nonnegative_batch (filter_batches (user s) objects) →
  (0 <= total_weight_kg s')%Q ∧ (0 <= total_co2_saved_kg s')%Q ∧
  (0 <= total_water_saved_liters s')%Q ∧
  (0 <= total_energy_saved_kwh s')%Q ∧ (0 <= trees_equivalent s')%Q ∧
  0 <= points s'.
Proof.
  intros s' Hall.
  pose proof (run_weight_is_total objects today s) as Hw.
  destruct (run_impact_is_total objects today s) as (Hco2 & Hwater & Henergy).
  fold s' in Hw, Hco2, Hwater, Henergy.
  assert (Hw0 : (0 <= total_weight_kg s')%Q).
  { rewrite Hw. apply total_nonneg, Forall_fmap.
    eapply Forall_impl; [exact Hall|]. intros b (H & _). exact H. }
  assert (Hc0 : (0 <= total_co2_saved_kg s')%Q).
  { rewrite Hco2. apply impact_nonneg.
    eapply Forall_impl; [exact Hall|]. intros b (? & ? & _). split; assumption. }
  repeat apply conj.
  - exact Hw0.
  - exact Hc0.
  - rewrite Hwater. apply impact_nonneg.
    eapply Forall_impl; [exact Hall|].
    intros b (? & _ & ? & _). split; assumption.
  - rewrite Henergy. apply impact_nonneg.
    eapply Forall_impl; [exact Hall|].
    intros b (? & _ & _ & ?). split; assumption.
  - unfold s'. rewrite run_trees_equivalent. fold s'.
    apply Qle_shift_div_l; [reflexivity|]. rewrite Qmult_0_l. exact Hc0.
  - unfold s'. rewrite run_points. fold s'.
    apply int_nonneg, times_ten_nonneg, Hw0.
Qed.

Lemma totals_nonnegative_witness :
  let s' := update_from_batches [batch10; batch10_deactivated] 4
              (create_eco_score 1) in
  Forall nonnegative_batch
    (filter_batches (user (create_eco_score 1)) [batch10; batch10_deactivated]) ∧
  (0 <= total_co2_saved_kg s')%Q ∧ 0 <= points s'.
Proof.
  intros s'.
  assert (Hall : Forall nonnegative_batch
            (filter_batches (user (create_eco_score 1))
               [batch10; batch10_deactivated])).
  { change (Forall nonnegative_batch [batch10]).
    repeat constructor; vm_compute; discriminate. }
  split; [exact Hall|].
  destruct (totals_nonnegative [batch10; batch10_deactivated] 4
              (create_eco_score 1) Hall) as (_ & Hco2 & _ & _ & _ & Hp).
  split; [exact Hco2|exact Hp].
Defined.

(** ** The order of the rows *)

Lemma total_Permutation (l1 l2 : list Decimal) :
  l1 ≡ₚ l2 → (total l1 == total l2)%Q.
Proof.
  induction 1 as [|x l1 l2 _ IH|x y l|l1 l2 l3 _ IH1 _ IH2]; simpl.
  - reflexivity.
  - rewrite IH. reflexivity.
  - qring.
  - rewrite IH1. exact IH2.
Qed.

Lemma int_opp (d : Decimal) : int (- d)%Q = - int d.
Proof. unfold int. destruct d as [n m]. simpl. apply Z.quot_opp_l. lia. Qed.

(** [int] depends on the value of the decimal only. *)
Lemma int_comp (p q : Decimal) : (p == q)%Q → int p = int q.
Proof.
  intros Hpq. destruct (Qlt_le_dec p 0) as [Hneg|Hpos].
  - assert (Hp : (0 <= - p)%Q).
    { apply Qlt_le_weak in Hneg. apply Qopp_le_compat in Hneg. exact Hneg. }
    assert (Hq : (0 <= - q)%Q) by (rewrite <- Hpq; exact Hp).
    assert (Heq : int (- p)%Q = int (- q)%Q).
    { rewrite !int_nonneg_floor by assumption. rewrite Hpq. reflexivity. }
    rewrite !int_opp in Heq. lia.
  - assert (Hq : (0 <= q)%Q) by (rewrite <- Hpq; exact Hpos).
    rewrite !int_nonneg_floor by assumption. rewrite Hpq. reflexivity.
Qed.

Lemma warranted_comp (w1 w2 : Decimal) n k b :
  (w1 == w2)%Q → warranted w1 n k b ↔ warranted w2 n k b.
Proof.
  intros Hw. split; apply warranted_mono; try lia; rewrite Hw; apply Qle_refl.
Qed.

Lemma progress_loop_comp (w1 w2 : Q) (bs : gset string) items :
  (w1 == w2)%Q → (progress_loop w1 bs items == progress_loop w2 bs items)%Q.
Proof.
  intros Hw. induction items as [|[b t] items IH]; [reflexivity|].
  simpl. case_bool_decide; [|exact IH]. rewrite Hw. reflexivity.
Qed.

(** X5. The result of a run does not depend on the order of the rows of the
    table: permuting them gives the same counts, level, points, badges and
    streak, and decimals of the same value. *)
Theorem row_order_irrelevant objects1 objects2 today s :
  objects1 ≡ₚ objects2 →
  same_score (update_from_batches objects1 today s)
             (update_from_batches objects2 today s).
Proof.
  intros Hperm.
  assert (Hf : filter_batches (user s) objects1 ≡ₚ
               filter_batches (user s) objects2).
  { unfold filter_batches. rewrite Hperm. reflexivity. }
  assert (Hn : total_batches (update_from_batches objects1 today s) =
               total_batches (update_from_batches objects2 today s)).
  { rewrite !run_total_batches. simpl. rewrite Hf. reflexivity. }
  assert (Hw : (total_weight_kg (update_from_batches objects1 today s) ==
                total_weight_kg (update_from_batches objects2 today s))%Q).
  { rewrite !run_weight_is_total. apply total_Permutation.
    rewrite Hf. reflexivity. }
  destruct (run_impact_is_total objects1 today s) as (Hc1 & Hw1 & He1).
  destruct (run_impact_is_total objects2 today s) as (Hc2 & Hw2 & He2).
  assert (Himpact : ∀ c, (impact c (filter_batches (user s) objects1) ==
                          impact c (filter_batches (user s) objects2))%Q).
  { intros c. unfold impact. apply total_Permutation. rewrite Hf. reflexivity. }
  assert (Hp : points (update_from_batches objects1 today s) =
               points (update_from_batches objects2 today s)).
  { rewrite !run_points. apply int_comp. rewrite Hw. reflexivity. }
  assert (Hb : badges (update_from_batches objects1 today s) =
               badges (update_from_batches objects2 today s)).
  { apply set_eq. intros b. rewrite !elem_of_update_from_batches_badges.
    rewrite Hn. apply warranted_comp, Hw. }
  unfold same_score. repeat apply conj.
  - rewrite !run_user. reflexivity.
  - exact Hn.
  - exact Hw.
  - rewrite Hc1, Hc2. apply Himpact.
  - rewrite Hw1, Hw2. apply Himpact.
  - rewrite He1, He2. apply Himpact.
  - rewrite !run_trees_equivalent, Hc1, Hc2, (Himpact co2_per_kg). reflexivity.
  - rewrite !run_level, Hp. reflexivity.
  - exact Hp.
  - exact Hb.
  - rewrite !run_next_badge_progress, Hb. apply progress_loop_comp, Hw.
  - rewrite !update_from_batches_streak_fields. reflexivity.
Qed.

Lemma row_order_irrelevant_witness :
  [recycled_batch (15 # 2)%Q; batch10] ≡ₚ [batch10; recycled_batch (15 # 2)%Q] ∧
  same_score
    (update_from_batches [recycled_batch (15 # 2)%Q; batch10] 4 (create_eco_score 1))
    (update_from_batches [batch10; recycled_batch (15 # 2)%Q] 4 (create_eco_score 1)).
Proof.
  assert (Hperm : [recycled_batch (15 # 2)%Q; batch10] ≡ₚ
                  [batch10; recycled_batch (15 # 2)%Q]) by apply perm_swap.
  split; [exact Hperm|].
  apply (row_order_irrelevant _ _ 4 (create_eco_score 1) Hperm).
Defined.

(** ** More on the level *)

(** On an ascending table the entries that are [<= pts] are exactly the
    ones at the positions below their count. *)
Lemma count_le_prefix pts table :
  StronglySorted Z.le table →
  ∀ (i : nat) t, table !! i = Some t →
    (Z.of_nat i < count_le pts table ↔ t <= pts).
Proof.
  induction 1 as [|t0 table Hs IH Hall]; intros i t Hi.
  - rewrite lookup_nil in Hi. discriminate Hi.
  - rewrite count_le_cons.
    pose proof (count_le_nonneg pts table) as Hc.
    destruct (Z.leb_spec t0 pts) as [Hle|Hlt].
    + destruct i as [|j]; simpl in Hi.
      * injection Hi as <-. lia.
      * specialize (IH j t Hi). lia.
    + rewrite count_le_above
        by (eapply Forall_impl; [exact Hall|]; simpl; intros; lia).
      assert (t0 <= t).
      { destruct i as [|j]; simpl in Hi; [injection Hi as <-; lia|].
        rewrite Forall_forall in Hall. apply Hall.
        apply list_elem_of_lookup. exists j. exact Hi. }
      lia.
Qed.

Lemma count_le_level_thresholds_range pts :
  0 <= pts → 1 <= count_le pts level_thresholds <= 11.
Proof.
  intros Hp. split; [|apply (count_le_length pts level_thresholds)].
  unfold level_thresholds. rewrite count_le_cons.
  pose proof (count_le_nonneg pts
                [100; 300; 600; 1000; 1500; 2100; 2800; 3600; 4500; 5500]).
  destruct (Z.leb_spec 0 pts); lia.
Qed.

Lemma le_floor_iff (t : Z) (q : Q) :
  t <= Qfloor q ↔ (inject_Z t <= q)%Q.
Proof.
  split.
  - intros Ht. eapply Qle_trans; [|apply Qfloor_le].
    rewrite <- Zle_Qle. exact Ht.
  - intros Ht.
    assert (Hlt : (inject_Z t < inject_Z (Qfloor q + 1))%Q)
      by (eapply Qle_lt_trans; [exact Ht|apply Qlt_floor]).
    rewrite <- Zlt_Qlt in Hlt. lia.
Qed.

(** X6. For a non-negative total weight, the level of a run is the unique
    position k (counting from 1) of the threshold table with
    thresholds[k-1] <= points and, unless k is the last position,
    points < thresholds[k]. *)
Theorem level_is_threshold_interval objects today s :
  let s' := update_from_batches objects today s in
  (0 <= total_weight_kg s')%Q →
  ∀ k : nat,
    Z.of_nat k = level s' ↔
    (1 ≤ k ≤ 11)%nat ∧
    (∀ t, level_thresholds !! (k - 1)%nat = Some t → t <= points s') ∧
    (∀ t, level_thresholds !! k = Some t → points s' < t).
Proof.
  intros s' Hw k.
  assert (Hp : 0 <= points s').
  { unfold s'. rewrite run_points. fold s'.
    apply int_nonneg, times_ten_nonneg, Hw. }
  unfold s' at 1. rewrite run_level. fold s'.
  rewrite level_loop_count by exact Hp.
  pose proof (count_le_level_thresholds_range (points s') Hp) as Hc.
  pose proof (count_le_prefix (points s') level_thresholds
                level_thresholds_ascending) as Hpre.
  split.
  - intros Hk. split; [lia|]. split.
    + intros t Ht. apply (Hpre _ _ Ht). lia.
    + intros t Ht. specialize (Hpre _ _ Ht). lia.
  - intros (Hrange & Hlow & Hhigh).
    destruct (Z.lt_trichotomy (Z.of_nat k)
                (count_le (points s') level_thresholds)) as [Hlt|[Heq|Hgt]].
    + destruct (lookup_lt_is_Some_2 level_thresholds k) as [t Ht];
        [simpl; lia|].
      specialize (Hhigh t Ht). specialize (Hpre _ _ Ht). lia.
    + exact Heq.
    + destruct (lookup_lt_is_Some_2 level_thresholds (k - 1)) as [t Ht];
        [simpl; lia|].
      specialize (Hlow t Ht). specialize (Hpre _ _ Ht). lia.
Qed.

Lemma level_is_threshold_interval_witness :
  let s' := update_from_batches [recycled_batch 25%Q] 4 (create_eco_score 1) in
  (0 <= total_weight_kg s')%Q ∧ points s' = 250 ∧ level s' = 2 ∧
  (∀ t, level_thresholds !! 1%nat = Some t → t <= points s') ∧
  (∀ t, level_thresholds !! 2%nat = Some t → points s' < t).
Proof.
  intros s'.
  assert (Hw : (0 <= total_weight_kg s')%Q) by (vm_compute; discriminate).
  assert (Hl : Z.of_nat 2 = level s') by reflexivity.
  destruct (proj1 (level_is_threshold_interval [recycled_batch 25%Q] 4
                     (create_eco_score 1) Hw 2%nat) Hl) as (_ & Hlow & Hhigh).
  repeat apply conj; [exact Hw|reflexivity|reflexivity|exact Hlow|exact Hhigh].
Defined.

(** X7. In kilograms: for a non-negative total weight, the level of a run
    is above position i of the threshold table exactly when ten times the
    total weight reaches thresholds[i] (level 2 from 10 kg, level 11 from
    550 kg). *)
Theorem level_reached_by_weight objects today s :
  let s' := update_from_batches objects today s in
  (0 <= total_weight_kg s')%Q →
  ∀ (i : nat) t, level_thresholds !! i = Some t →
    (Z.of_nat i < level s' ↔ (inject_Z t <= total_weight_kg s' * 10)%Q).
Proof.
  intros s' Hw i t Ht.
  assert (Hpts : points s' = Qfloor (total_weight_kg s' * 10)).
  { unfold s'. rewrite run_points. fold s'.
    apply int_nonneg_floor, times_ten_nonneg, Hw. }
  assert (Hp : 0 <= points s').
  { unfold s'. rewrite run_points. fold s'.
    apply int_nonneg, times_ten_nonneg, Hw. }
  unfold s' at 1. rewrite run_level. fold s'.
  rewrite level_loop_count by exact Hp.
  rewrite (count_le_prefix (points s') level_thresholds
             level_thresholds_ascending i t Ht).
  rewrite Hpts. apply le_floor_iff.
Qed.

Lemma level_reached_by_weight_witness :
  let s' := update_from_batches [recycled_batch 25%Q] 4 (create_eco_score 1) in
  ((0 <= total_weight_kg s')%Q ∧ level_thresholds !! 1%nat = Some 100) ∧
  (1 < level s' ↔ (inject_Z 100 <= total_weight_kg s' * 10)%Q).
Proof.
  intros s'.
  assert (Hw : (0 <= total_weight_kg s')%Q) by (vm_compute; discriminate).
  assert (Ht : level_thresholds !! 1%nat = Some 100) by reflexivity.
  split; [split; assumption|].
  apply (level_reached_by_weight [recycled_batch 25%Q] 4 (create_eco_score 1)
           Hw 1%nat 100 Ht).
Defined.

Lemma update_from_batches_level_range objects today s :
  1 <= level s <= 11 → 1 <= level (update_from_batches objects today s) <= 11.
Proof.
  intros Hl. rewrite run_level.
  destruct (Z.lt_ge_cases (points (update_from_batches objects today s)) 0)
    as [Hneg|Hpos].
  - rewrite level_loop_negative by exact Hneg. exact Hl.
  - rewrite level_loop_count by exact Hpos.
    apply count_le_level_thresholds_range, Hpos.
Qed.

(** X8. Whatever the tables of the successive runs contain (negative
    weights included), the level of a score created by the signal handler
    stays between 1 and 11. *)
Theorem level_between_one_and_eleven u runs :
  1 <= level (run_all runs (create_eco_score u)) <= 11.
Proof.
  assert (Hgen : ∀ s, 1 <= level s <= 11 → 1 <= level (run_all runs s) <= 11).
  { induction runs as [|[objects today] runs IH]; intros s Hs; [exact Hs|].
    apply IH, update_from_batches_level_range, Hs. }
  apply Hgen. simpl. lia.
Qed.

(** ** More on the badges *)

Ltac in_list := apply list_elem_of_In; simpl; auto 20.

(** X9. Within each badge family (weight, batch count, streak) the badge set
    of a run is closed downwards: a badge is never present without every
    badge of the same family that has a lower threshold. *)
Theorem badge_tiers_nested objects today s table b t b' t' :
  table ∈ [next_badge_thresholds; batch_badge_thresholds;
           streak_badge_thresholds] →
  (b, t) ∈ table → (b', t') ∈ table → t' <= t →
  b ∈ badges (update_from_batches objects today s) →
  b' ∈ badges (update_from_batches objects today s).
Proof.
  intros Htable Hb Hb' Hle.
  rewrite !elem_of_update_from_batches_badges.
  apply elem_of_cons in Htable as [->|Htable];
    [|apply elem_of_cons in Htable as [->|Htable];
      [|apply list_elem_of_singleton in Htable as ->]].
  - rewrite (weight_badge_warranted _ _ _ b t Hb).
    rewrite (weight_badge_warranted _ _ _ b' t' Hb').
    intros Ht. eapply Qle_trans; [|exact Ht]. rewrite <- Zle_Qle. exact Hle.
  - rewrite (batch_badge_warranted _ _ _ b t Hb).
    rewrite (batch_badge_warranted _ _ _ b' t' Hb'). lia.
  - rewrite (streak_badge_warranted _ _ _ b t Hb).
    rewrite (streak_badge_warranted _ _ _ b' t' Hb'). lia.
Qed.

Lemma badge_tiers_nested_witness :
  let s' := update_from_batches [batch10] 4 (create_eco_score 1) in
  (next_badge_thresholds ∈ [next_badge_thresholds; batch_badge_thresholds;
                            streak_badge_thresholds] ∧
   ("eco_starter", 10) ∈ next_badge_thresholds ∧
   ("first_step", 1) ∈ next_badge_thresholds ∧ 1 <= 10 ∧
   "eco_starter" ∈ badges s') ∧
  "first_step" ∈ badges s'.
Proof.
  intros s'.
  assert (H1 : next_badge_thresholds ∈
            [next_badge_thresholds; batch_badge_thresholds;
             streak_badge_thresholds]) by (apply elem_of_cons; left; reflexivity).
  assert (H2 : ("eco_starter", 10) ∈ next_badge_thresholds)
    by (unfold next_badge_thresholds; in_list).
  assert (H3 : ("first_step", 1) ∈ next_badge_thresholds)
    by (unfold next_badge_thresholds; in_list).
  assert (H4 : 1 <= 10) by lia.
  assert (H5 : "eco_starter" ∈ badges s') by (vm_compute; reflexivity).
  split; [repeat apply conj; assumption|].
  apply (badge_tiers_nested [batch10] 4 (create_eco_score 1)
           next_badge_thresholds "eco_starter" 10 "first_step" 1 H1 H2 H3 H4 H5).
Defined.

Lemma known_badges_NoDup : NoDup known_badges.
Proof.
  unfold known_badges. simpl.
  repeat (apply NoDup_cons_2;
          [rewrite ?elem_of_cons, elem_of_nil; intuition discriminate|]).
  apply NoDup_nil_2.
Qed.

(** X10. A run writes only the twelve badge codes of its tables, whatever the
    stored array held before (other stored codes are dropped); so the badge
    set has at most twelve elements. *)
Theorem only_known_badges objects today s :
  let s' := update_from_batches objects today s in
  (∀ b, b ∈ badges s' → b ∈ known_badges) ∧ (size (badges s') ≤ 12)%nat.
Proof.
  intros s'.
  assert (Hknown : ∀ b, b ∈ badges s' → b ∈ known_badges).
  { intros b Hb. apply elem_of_update_from_batches_badges in Hb.
    unfold known_badges. apply list_elem_of_fmap.
    destruct Hb as [(t & Hin & _)|[(t & Hin & _)|(t & Hin & _)]];
      exists (b, t); (split; [reflexivity|]); rewrite !elem_of_app; tauto. }
  split; [exact Hknown|].
  assert (Hsub : badges s' ⊆ list_to_set known_badges).
  { intros b Hb. apply elem_of_list_to_set, Hknown, Hb. }
  apply subseteq_size in Hsub.
  rewrite (size_list_to_set known_badges known_badges_NoDup) in Hsub.
  exact Hsub.
Qed.

(** ** More on the progress *)

Lemma weight_badge_in_run objects today s b t :
  (b, t) ∈ next_badge_thresholds →
  b ∈ badges (update_from_batches objects today s) ↔
  (inject_Z t <= total_weight_kg (update_from_batches objects today s))%Q.
Proof.
  intros Hin. rewrite elem_of_update_from_batches_badges.
  apply (weight_badge_warranted _ _ _ b t Hin).
Qed.

Lemma progress_below_threshold objects today s b t :
  let s' := update_from_batches objects today s in
  (b, t) ∈ next_badge_thresholds →
  (total_weight_kg s' < inject_Z t)%Q →
  (∀ b' t', (b', t') ∈ next_badge_thresholds → t' < t →
            (inject_Z t' <= total_weight_kg s')%Q) →
  next_badge_progress s' = (total_weight_kg s' / inject_Z t)%Q.
Proof.
  intros s' Hin Hlt Hprev. unfold s'. rewrite run_next_badge_progress.
  apply (progress_loop_ascending _ _ _ b t next_badge_thresholds_ascending Hin).
  - rewrite (weight_badge_in_run objects today s b t Hin).
    apply Qlt_not_le, Hlt.
  - intros b' t' Hin' Hlt'.
    apply (weight_badge_in_run objects today s b' t' Hin').
    apply (Hprev b' t' Hin' Hlt').
Qed.

Ltac below_threshold objects today s b t :=
  apply (progress_below_threshold objects today s b t);
  [ unfold next_badge_thresholds; in_list
  | assumption
  | let Hin := fresh "Hin" in
    intros ? ? Hin ?; unfold next_badge_thresholds in Hin;
    split_table Hin; try lia;
    match goal with
    | H : (_ <= ?w)%Q |- (_ <= ?w)%Q =>
        eapply Qle_trans; [|exact H]; vm_compute; discriminate
    end ].

(** X11. The progress of a run as a function of its total weight w alone:
    w/1 below 1 kg (negative for a negative weight), w/10 from 1 kg, w/50
    from 10 kg, w/100 from 50 kg, w/500 from 100 kg, w/1000 from 500 kg and
    1 from 1000 kg on. *)
Theorem next_badge_progress_by_weight objects today s :
  let w := total_weight_kg (update_from_batches objects today s) in
  let p := next_badge_progress (update_from_batches objects today s) in
  ((w < 1)%Q → p = (w / inject_Z 1)%Q) ∧
  ((1 <= w)%Q → (w < 10)%Q → p = (w / inject_Z 10)%Q) ∧
  ((10 <= w)%Q → (w < 50)%Q → p = (w / inject_Z 50)%Q) ∧
  ((50 <= w)%Q → (w < 100)%Q → p = (w / inject_Z 100)%Q) ∧
  ((100 <= w)%Q → (w < 500)%Q → p = (w / inject_Z 500)%Q) ∧
  ((500 <= w)%Q → (w < 1000)%Q → p = (w / inject_Z 1000)%Q) ∧
  ((1000 <= w)%Q → p = 1%Q).
Proof.
  intros w p. subst w p. repeat apply conj.
  - intros Hhi. below_threshold objects today s "first_step" 1.
  - intros Hlo Hhi. below_threshold objects today s "eco_starter" 10.
  - intros Hlo Hhi. below_threshold objects today s "eco_enthusiast" 50.
  - intros Hlo Hhi. below_threshold objects today s "eco_warrior" 100.
  - intros Hlo Hhi. below_threshold objects today s "eco_champion" 500.
  - intros Hlo Hhi. below_threshold objects today s "eco_legend" 1000.
  - intros Hlo. rewrite run_next_badge_progress. apply progress_loop_all.
    apply Forall_forall. intros [b t] Hin. simpl.
    apply (weight_badge_in_run objects today s b t Hin).
    unfold next_badge_thresholds in Hin. split_table Hin;
      (eapply Qle_trans; [|exact Hlo]); vm_compute; discriminate.
Qed.

Lemma next_badge_progress_by_weight_witness :
  let s' := update_from_batches [recycled_batch 25%Q] 4 (create_eco_score 1) in
  ((10 <= total_weight_kg s')%Q ∧ (total_weight_kg s' < 50)%Q) ∧
  next_badge_progress s' = (total_weight_kg s' / inject_Z 50)%Q.
Proof.
  intros s'.
  assert (Hlo : (10 <= total_weight_kg s')%Q) by (vm_compute; discriminate).
  assert (Hhi : (total_weight_kg s' < 50)%Q) by (vm_compute; reflexivity).
  split; [split; assumption|].
  destruct (next_badge_progress_by_weight [recycled_batch 25%Q] 4
              (create_eco_score 1)) as (_ & _ & Hcase & _).
  exact (Hcase Hlo Hhi).
Defined.

(** ** More on the streak *)

Lemma run_all_snoc runs objects today s :
  run_all (runs ++ [(objects, today)])%list s =
  update_from_batches objects today (run_all runs s).
Proof. unfold run_all. rewrite foldl_app. reflexivity. Qed.

Lemma run_streak_fields objects today s :
  streak_fields (update_from_batches objects today s) =
  streak_transition (classify (last_activity_date s) today) today
    (streak_fields s).
Proof.
  rewrite update_from_batches_streak_fields. apply _update_streak_fields.
Qed.

Ltac streak_cases objects today s :=
  let Hf := fresh "Hf" in
  pose proof (run_streak_fields objects today s) as Hf;
  unfold streak_fields, classify in Hf;
  destruct (last_activity_date s) as [?d|] eqn:?Hlast;
  repeat case_decide; simpl in Hf;
  let Hd := fresh "Hdays" in
  let Hl := fresh "Hlongest" in
  let Ht := fresh "Hdate" in
  injection Hf as Hd Hl Ht; rewrite ?Hd, ?Hl, ?Ht.

Lemma run_sets_last_activity_date objects today s :
  last_activity_date (update_from_batches objects today s) = Some today.
Proof. streak_cases objects today s; congruence. Qed.

Lemma update_from_batches_streak_count n objects today s :
  streak_count_invariant n s →
  streak_count_invariant (n + 1) (update_from_batches objects today s).
Proof.
  unfold streak_count_invariant. intros (Hs & Hl & Hone & Hzero).
  assert (Hne : last_activity_date s = None ∨ 1 <= streak_days s).
  { destruct (last_activity_date s); [right; apply Hone; discriminate|].
    left. reflexivity. }
  streak_cases objects today s;
    (split; [|split; [|split; [intros _|discriminate]]]);
    try lia; destruct Hne as [Hne|Hne]; try discriminate Hne; lia.
Qed.

Lemma run_all_streak_count runs : ∀ n s,
  streak_count_invariant n s →
  streak_count_invariant (n + Z.of_nat (length runs)) (run_all runs s).
Proof.
  induction runs as [|[objects today] runs IH]; intros n s Hs.
  - simpl. rewrite Z.add_0_r. exact Hs.
  - simpl length. rewrite Nat2Z.inj_succ.
    replace (n + Z.succ (Z.of_nat (length runs)))
      with (n + 1 + Z.of_nat (length runs)) by lia.
    apply IH, update_from_batches_streak_count, Hs.
Qed.

Lemma create_eco_score_streak_count u :
  streak_count_invariant 0 (create_eco_score u).
Proof.
  unfold streak_count_invariant. simpl.
  repeat split; try lia. intros H. destruct H. reflexivity.
Qed.

(** X12. After the n-th run of a score created by the signal handler,
    [last_activity_date] is the date of that run and
    1 <= streak_days <= n, longest_streak_days <= n: a streak cannot be
    longer than the number of runs. *)
Theorem streak_bounded_by_runs u runs objects today :
  let s' := run_all (runs ++ [(objects, today)])%list (create_eco_score u) in
  last_activity_date s' = Some today ∧
  1 <= streak_days s' <= Z.of_nat (length runs) + 1 ∧
  longest_streak_days s' <= Z.of_nat (length runs) + 1.
Proof.
  intros s'. unfold s'. rewrite run_all_snoc.
  split; [apply run_sets_last_activity_date|].
  pose proof (run_all_streak_count runs 0 (create_eco_score u)
                (create_eco_score_streak_count u)) as Hinv.
  apply (update_from_batches_streak_count _ objects today) in Hinv.
  destruct Hinv as (Hs & Hl & Hone & _).
  rewrite run_sets_last_activity_date in Hone.
  assert (1 <= streak_days
            (update_from_batches objects today
               (run_all runs (create_eco_score u))))
    by (apply Hone; discriminate).
  lia.
Qed.

(** X13. Along the runs of a score created by the signal handler,
    [longest_streak_days] never decreases. *)
Theorem longest_streak_never_decreases u runs objects today :
  let s := run_all runs (create_eco_score u) in
  longest_streak_days s <=
  longest_streak_days (update_from_batches objects today s).
Proof.
  intros s.
  pose proof (run_all_streak_count runs 0 (create_eco_score u)
                (create_eco_score_streak_count u)) as (_ & Hl & _ & Hzero).
  fold s in Hl, Hzero.
  assert (Hnone : last_activity_date s = None → longest_streak_days s = 0)
    by exact Hzero.
  clear Hzero.
  streak_cases objects today s; try lia.
  rewrite Hnone by reflexivity. lia.
Qed.

Lemma consecutive_runs tables : ∀ s d k,
  streak_fields s = (k, k, Some (d - 1)) →
  streak_fields (run_all (on_consecutive_days d tables) s) =
  (k + Z.of_nat (length tables), k + Z.of_nat (length tables),
   Some (d + Z.of_nat (length tables) - 1)).
Proof.
  induction tables as [|objects tables IH]; intros s d k Hs.
  - simpl. rewrite Hs, !Z.add_0_r. reflexivity.
  - simpl on_consecutive_days. simpl run_all.
    rewrite (IH _ (d + 1) (k + 1)).
    + simpl length. rewrite Nat2Z.inj_succ.
      replace (k + 1 + Z.of_nat (length tables))
        with (k + Z.succ (Z.of_nat (length tables))) by lia.
      replace (d + 1 + Z.of_nat (length tables) - 1)
        with (d + Z.succ (Z.of_nat (length tables)) - 1) by lia.
      reflexivity.
    + rewrite run_streak_fields. unfold streak_fields in Hs.
      injection Hs as Hd Hl Hlast. unfold streak_fields, classify.
      rewrite Hlast, Hd, Hl.
      rewrite decide_False by lia. rewrite decide_True by lia.
      simpl. rewrite Z.max_r by lia.
      replace (d + 1 - 1) with d by lia. reflexivity.
Qed.

(** X14. Runs on n >= 1 consecutive days, starting with a score created by
    the signal handler, end with streak_days = longest_streak_days = n,
    whatever the tables contain. *)
Theorem consecutive_days_streak u first tables :
  tables ≠ [] →
  streak_fields (run_all (on_consecutive_days first tables)
                         (create_eco_score u)) =
  (Z.of_nat (length tables), Z.of_nat (length tables),
   Some (first + Z.of_nat (length tables) - 1)).
Proof.
  destruct tables as [|objects tables]; [intros H; destruct H; reflexivity|].
  intros _. simpl on_consecutive_days. simpl run_all.
  rewrite (consecutive_runs tables _ (first + 1) 1).
  - simpl length. rewrite Nat2Z.inj_succ.
    replace (1 + Z.of_nat (length tables))
      with (Z.succ (Z.of_nat (length tables))) by lia.
    replace (first + 1 + Z.of_nat (length tables) - 1)
      with (first + Z.succ (Z.of_nat (length tables)) - 1) by lia.
    reflexivity.
  - rewrite run_streak_fields. simpl.
    replace (first + 1 - 1) with first by lia. reflexivity.
Qed.

Lemma consecutive_days_streak_witness :
  [[batch10]; []; [batch10]] ≠ [] ∧
  streak_fields (run_all (on_consecutive_days 5 [[batch10]; []; [batch10]])
                         (create_eco_score 1)) = (3, 3, Some 7).
Proof.
  assert (Hne : [[batch10]; []; [batch10]] ≠ []) by discriminate.
  split; [exact Hne|].
  apply (consecutive_days_streak 1 5 [[batch10]; []; [batch10]] Hne).
Defined.

(** ** What a run reads, and repeating a run *)

Lemma run_points_depends_on_user objects today s1 s2 :
  user s1 = user s2 →
  points (update_from_batches objects today s1) =
  points (update_from_batches objects today s2).
Proof.
  intros Hu. rewrite !run_points, !run_total_weight_kg.
  unfold after_aggregation. rewrite Hu. reflexivity.
Qed.

Lemma update_from_batches_ext objects today s1 s2 :
  user s1 = user s2 → streak_fields s1 = streak_fields s2 →
  level (update_from_batches objects today s1) =
  level (update_from_batches objects today s2) →
  update_from_batches objects today s1 = update_from_batches objects today s2.
Proof.
  intros Hu Hs Hl. rewrite !run_level in Hl.
  rewrite (run_points_depends_on_user objects today s1 s2 Hu) in Hl.
  rewrite run_points, run_total_weight_kg in Hl.
  destruct s1, s2. unfold streak_fields in Hs.
  cbn [user level streak_days longest_streak_days last_activity_date]
    in Hu, Hs, Hl.
  injection Hs as -> -> ->. subst.
  unfold update_from_batches, _update_gamification_elements, set_aggregates,
    set_gamification.
  cbn [user level total_weight_kg total_batches streak_days points badges
       next_badge_progress longest_streak_days last_activity_date
       total_co2_saved_kg total_water_saved_liters total_energy_saved_kwh
       trees_equivalent].
  unfold after_aggregation, set_aggregates in Hl.
  cbn [user total_weight_kg] in Hl. rewrite Hl. reflexivity.
Qed.

(** X15. A run recomputes everything from the table: of the stored object it
    reads only [user], [level] and the three streak columns, so two objects
    that agree on these (and differ in stored totals, points, badges or
    progress) give the same result. *)
Theorem run_reads_user_level_streak objects today s1 s2 :
  user s1 = user s2 → level s1 = level s2 →
  streak_fields s1 = streak_fields s2 →
  update_from_batches objects today s1 = update_from_batches objects today s2.
Proof.
  intros Hu Hl Hs. apply update_from_batches_ext; [exact Hu|exact Hs|].
  rewrite !run_level, Hl.
  rewrite (run_points_depends_on_user objects today s1 s2 Hu). reflexivity.
Qed.

Lemma run_reads_user_level_streak_witness :
  let s1 := create_eco_score 1 in
  let s2 := set_gamification 1 999 {[ "legacy_badge" ]} (7 # 2)%Q s1 in
  (user s1 = user s2 ∧ level s1 = level s2 ∧
   streak_fields s1 = streak_fields s2) ∧
  update_from_batches [batch10] 4 s1 = update_from_batches [batch10] 4 s2.
Proof.
  intros s1 s2.
  assert (Hu : user s1 = user s2) by reflexivity.
  assert (Hl : level s1 = level s2) by reflexivity.
  assert (Hs : streak_fields s1 = streak_fields s2) by reflexivity.
  split; [repeat apply conj; assumption|].
  apply (run_reads_user_level_streak [batch10] 4 s1 s2 Hu Hl Hs).
Defined.

Lemma level_loop_idempotent pts lvl :
  level_loop pts (level_loop pts lvl (enumerate level_thresholds))
    (enumerate level_thresholds) =
  level_loop pts lvl (enumerate level_thresholds).
Proof.
  destruct (Z.lt_ge_cases pts 0) as [Hneg|Hpos].
  - rewrite !level_loop_negative by exact Hneg. reflexivity.
  - rewrite !level_loop_count by exact Hpos. reflexivity.
Qed.

Lemma same_day_run_fixpoint objects today s :
  last_activity_date s = Some today →
  update_from_batches objects today (update_from_batches objects today s) =
  update_from_batches objects today s.
Proof.
  intros Hlast.
  assert (Hu : user (update_from_batches objects today s) = user s)
    by apply run_user.
  assert (Hs : streak_fields (update_from_batches objects today s) =
               streak_fields s).
  { rewrite run_streak_fields. unfold classify. rewrite Hlast.
    rewrite decide_True by reflexivity. unfold streak_fields.
    rewrite Hlast. reflexivity. }
  apply update_from_batches_ext; [exact Hu|exact Hs|].
  rewrite (run_level objects today (update_from_batches objects today s)).
  rewrite (run_points_depends_on_user objects today _ s Hu).
  rewrite (run_level objects today s) at 1.
  rewrite level_loop_idempotent. symmetry. apply run_level.
Qed.

(** X16. Repeating a run on the same day with the same table changes
    nothing when the stored [last_activity_date] already is today; so from
    the second run of a day on, every further repetition returns the same
    object. *)
Theorem repeated_run_same_day objects today s :
  let run := update_from_batches objects today in
  (last_activity_date s = Some today → run (run s) = run s) ∧
  run (run (run s)) = run (run s).
Proof.
  intros run. split.
  - apply same_day_run_fixpoint.
  - apply same_day_run_fixpoint, run_sets_last_activity_date.
Qed.

Lemma repeated_run_same_day_witness :
  let s := update_from_batches [] 4 (create_eco_score 1) in
  last_activity_date s = Some 4 ∧
  update_from_batches [batch10] 4 (update_from_batches [batch10] 4 s) =
  update_from_batches [batch10] 4 s.
Proof.
  intros s.
  assert (Hlast : last_activity_date s = Some 4) by reflexivity.
  split; [exact Hlast|].
  apply (proj1 (repeated_run_same_day [batch10] 4 s) Hlast).
Defined.

(** ** One more batch *)

(** X17. With the same stored object and date, a table with one more row
    that passes the filter and has a non-negative weight gives one more
    batch, that much more weight, and (the weight before being
    non-negative) no fewer points, no lower level and no badge less. *)
Theorem one_more_batch objects b today s :
  let s1 := update_from_batches objects today s in
  let s2 := update_from_batches (b :: objects) today s in
  passes_filter (user s) b → (0 <= weight_kg b)%Q →
  (0 <= total_weight_kg s1)%Q →
  total_batches s2 = total_batches s1 + 1 ∧
  (total_weight_kg s2 == total_weight_kg s1 + weight_kg b)%Q ∧
  points s1 <= points s2 ∧ level s1 <= level s2 ∧ badges s1 ⊆ badges s2.
Proof.
  intros s1 s2 Hb Hwb Hw1.
  assert (Hf : filter_batches (user s) (b :: objects) =
               b :: filter_batches (user s) objects).
  { unfold filter_batches. apply filter_cons_True. exact Hb. }
  assert (Hn : total_batches s2 = total_batches s1 + 1).
  { unfold s1, s2. rewrite !run_total_batches. unfold after_aggregation.
    cbn [total_batches set_aggregates]. rewrite Hf. simpl length. lia. }
  assert (Hw : (total_weight_kg s2 == total_weight_kg s1 + weight_kg b)%Q).
  { unfold s1, s2. rewrite !run_weight_is_total, Hf. csimpl. qring. }
  assert (Hle : (total_weight_kg s1 <= total_weight_kg s2)%Q).
  { rewrite Hw. rewrite <- (Qplus_0_r (total_weight_kg s1)) at 1.
    apply Qplus_le_compat; [apply Qle_refl|exact Hwb]. }
  assert (Hp : points s1 <= points s2).
  { unfold s1 at 1. unfold s2 at 1. rewrite !run_points. fold s1 s2.
    apply int_times_ten_mono; assumption. }
  assert (Hp1 : 0 <= points s1).
  { unfold s1. rewrite run_points. fold s1.
    apply int_nonneg, times_ten_nonneg, Hw1. }
  repeat apply conj; try assumption.
  - unfold s1 at 1. unfold s2 at 1. rewrite !run_level. fold s1 s2.
    rewrite !level_loop_count by lia. apply count_le_mono, Hp.
  - intros x. unfold s1, s2. rewrite !elem_of_update_from_batches_badges.
    fold s1 s2. apply warranted_mono; [exact Hle|lia|lia].
Qed.

Lemma one_more_batch_witness :
  let s := create_eco_score 1 in
  let s1 := update_from_batches [batch10] 4 s in
  let s2 := update_from_batches [recycled_batch 45%Q; batch10] 4 s in
  (passes_filter (user s) (recycled_batch 45%Q) ∧
   (0 <= weight_kg (recycled_batch 45%Q))%Q ∧ (0 <= total_weight_kg s1)%Q) ∧
  total_batches s2 = total_batches s1 + 1 ∧
  level s1 <= level s2 ∧ badges s1 ⊆ badges s2.
Proof.
  intros s s1 s2.
  assert (Hb : passes_filter (user s) (recycled_batch 45%Q))
    by (repeat split).
  assert (Hwb : (0 <= weight_kg (recycled_batch 45%Q))%Q)
    by (vm_compute; discriminate).
  assert (Hw1 : (0 <= total_weight_kg s1)%Q) by (vm_compute; discriminate).
  split; [split; [exact Hb|split; [exact Hwb|exact Hw1]]|].
  destruct (one_more_batch [batch10] (recycled_batch 45%Q) 4 s Hb Hwb Hw1)
    as (Hn & _ & _ & Hl & Hbs).
  repeat apply conj; [exact Hn|exact Hl|exact Hbs].
Defined.

(** ** The first run *)

(** X18. The first run of a score created by the signal handler starts the
    streak (streak_days = longest_streak_days = 1, dated today) and awards
    no streak badge, whatever the table contains. *)
Theorem first_run_after_creation u objects today :
  let s' := update_from_batches objects today (create_eco_score u) in
  streak_fields s' = (1, 1, Some today) ∧
  ∀ b t, (b, t) ∈ streak_badge_thresholds → b ∉ badges s'.
Proof.
  intros s'. split.
  - unfold s'. rewrite run_streak_fields. reflexivity.
  - intros b t Hin Hb. unfold s' in Hb.
    apply elem_of_update_from_batches_badges in Hb.
    apply (streak_badge_warranted _ _ _ b t Hin) in Hb.
    simpl in Hb. unfold streak_badge_thresholds in Hin.
    split_table Hin; lia.
Qed.
